(** * Time-accounting engine of the attendance tracker

    A shallow embedding of [js/services/TimeCalculator.js] and the
    properties of its accounting rules: pair resolution, break policy,
    day accounting, daily delta, week balance and the Friday exit
    suggestion.

    Conventions of the embedding:
    - minute counts are JavaScript numbers that only ever hold integers
      here; they are embedded as [Z];
    - hour counts ([entry.hours], the [*_HOURS] constants, the quotient
      [workedMinutes / 60]) are fractional; they are embedded as exact
      rationals [Q], and [Math.round x] is [floor (x + 1/2)];
    - a value that can be [null]/[undefined] is an [option];
    - an operation that raises a [TypeError] in JavaScript (reading a
      property of [undefined], calling a method of [null]) is made
      explicit in the [Completion] monad. *)

From Stdlib Require Import ZArith QArith Qround Ascii String Lia.
From stdpp Require Import base option list strings gmap sorting pretty.

Local Open Scope string_scope.
Local Open Scope Z_scope.

(** ** JavaScript completions *)

Inductive JsError : Type := TypeError.

Inductive Completion (A : Type) : Type :=
  | Normal (a : A)
  | Throw (e : JsError).
Arguments Normal {A} a.
Arguments Throw {A} e.

#[global] Instance Completion_ret : MRet Completion := @Normal.
#[global] Instance Completion_bind : MBind Completion := λ A B k c,
  match c with
  | Normal a => k a
  | Throw e => Throw e
  end.

Definition returns {A : Type} (c : Completion A) : Prop := ∃ a, c = Normal a.

(** [arr[i]] : an index out of range reads [undefined]. *)
Definition jsIndex {A : Type} (arr : list (option A)) (i : nat) : option A :=
  mjoin (arr !! i).

(** [Math.round], on exact rationals: the nearest integer, halves upwards. *)
Definition Math_round (x : Q) : Z := Qfloor (x + (1 # 2))%Q.

(** [a > b] on numbers. *)
Definition Qgtb (a b : Q) : bool := negb (Qle_bool a b).

(** ** Data model *)

(** One recorded event, [{type, time?, hours?}]. *)
Record Entry : Type := mkEntry {
  type : string;
  time : option string;
  hours : option Q
}.

(** [entries[0].type] and the like: reading a property of [undefined] throws. *)
Definition prop {A : Type} (o : option Entry) (field : Entry → A) : Completion A :=
  match o with
  | Some e => Normal (field e)
  | None => Throw TypeError
  end.

(** [entry.hours || 0] *)
Definition hoursOrZero (e : Entry) : Q :=
  match hours e with
  | Some h => if Qeq_bool h 0 then 0%Q else h
  | None => 0%Q
  end.

(** [!entries || entries.length === 0] *)
Definition noEntries (entries : option (list Entry)) : bool :=
  match entries with
  | None => true
  | Some es => (length es =? 0)%nat
  end.

Module CONFIG.
Definition WEEKLY_TARGET_HOURS : Q := 36.
Definition WEEKLY_TARGET_MINUTES : Z := 36 * 60.
Definition PAUSE_MINUTES : Z := 30.
Definition PAUSE_THRESHOLD_HOURS : Q := 6.
Definition SMART_HOURS_DEFAULT : Q := 7.5.
Definition SMART_HOURS_FRIDAY : Q := 6.
Definition DAILY_TARGET_HOURS : Q := 7.5.
Definition FRIDAY_TARGET_HOURS : Q := 6.
End CONFIG.

(** Result of [calculatePairMinutes]. *)
Module Pair.
Record t : Type := mk {
  workedMinutes : Z;
  hasIncomplete : bool;
  pairCount : nat;
  breakMinutes : Z
}.
End Pair.

(** Result of [calculateDayHours]; the last three fields are absent
    ([undefined]) on the two early returns. *)
Module Day.
Record t : Type := mk {
  minutes : Z;
  formatted : string;
  hasIncomplete : bool;
  grossMinutes : option Z;
  pauseApplied : option bool;
  breakMinutes : option Z
}.
End Day.

(** Result of [calculateDayDelta]. *)
Module Delta.
Record t : Type := mk {
  minutes : Z;
  formatted : string;
  isPositive : bool;
  isNegative : bool;
  isNeutral : bool;
  hasIncomplete : bool
}.
End Delta.

(** Result of [calculateBalance]. *)
Module Balance.
Record t : Type := mk {
  minutes : Z;
  formatted : string;
  isPositive : bool;
  isNegative : bool;
  isNeutral : bool
}.
End Balance.

(** Result of [calculateRemaining]. *)
Module Remaining.
Record t : Type := mk {
  minutes : Z;
  formatted : string
}.
End Remaining.

(** Result of [calculateWeekTotal]. *)
Module WeekTotal.
Record t : Type := mk {
  minutes : Z;
  formatted : string;
  byDay : gmap string Day.t
}.
End WeekTotal.

(** Result of [calculateFridayExitSuggestion]. *)
Module Suggestion.
Record t : Type := mk {
  exitTime : option string;
  extraMinutes : Z;
  fridayTargetMinutes : Z;
  fridayDateKey : string;
  hasFridayEntrata : bool;
  hasFridayComplete : bool
}.
End Suggestion.

(** ** The imported helpers

    [TimeCalculator.js] imports [parseTimeToMinutes] and [minutesToTime]
    from [utils/Validators.js], and [isFriday] and [parseDateISO] from
    [utils/DateUtils.js].  The engine is embedded over this interface. *)
Class Utils : Type := {
  JsDate : Type;
  parseTimeToMinutes : option string → option Z;
  minutesToTime : Z → string;
  parseDateISO : string → JsDate;
  isFriday : JsDate → bool
}.

(** A week's entries, [{dateKey: [entries]}]; a stored value may be
    [null]/[undefined], which the engine guards against. *)
Abbreviation WeekEntries := (gmap string (option (list Entry))).

(** [weekEntries[dateKey]] *)
Definition weekGet (weekEntries : WeekEntries) (dateKey : string) : option (list Entry) :=
  mjoin (weekEntries !! dateKey).

(** [entries.length], [entries[i]]: both throw on [null]/[undefined]. *)
Definition arrayLength {A : Type} (arr : option (list A)) : Completion nat :=
  match arr with
  | Some l => Normal (length l)
  | None => Throw TypeError
  end.

Definition arrayAt {A : Type} (arr : option (list A)) (i : nat) : Completion (option A) :=
  match arr with
  | Some l => Normal (l !! i)
  | None => Throw TypeError
  end.

(** [for (const x of l) { s = step(s, x) }] with a body that may throw. *)
Fixpoint forOf {A S : Type} (step : S → A → Completion S) (s : S) (l : list A) : Completion S :=
  match l with
  | [] => Normal s
  | x :: l' => s' ← step s x; forOf step s' l'
  end.

(** ** TimeCalculator *)

Section TimeCalculator.
Context {U : Utils}.

(** Body of the loop of [calculatePairMinutes] at index [i]; the state is
    [(workedMinutes, breakMinutes)]. *)
Definition pairStep (entrate uscite : list (option string)) (pairs : nat)
    (acc : Z * Z) (i : nat) : Z * Z :=
  let '(workedMinutes, breakMinutes) := acc in
  let entrataMinutes := parseTimeToMinutes (jsIndex entrate i) in
  let uscitaMinutes := parseTimeToMinutes (jsIndex uscite i) in
  let workedMinutes :=
    match entrataMinutes, uscitaMinutes with
    | Some entrataMinutes, Some uscitaMinutes =>
        let diff := uscitaMinutes - entrataMinutes in
        if 0 <? diff then workedMinutes + diff else workedMinutes
    | _, _ => workedMinutes
    end in
  let breakMinutes :=
    if Z.of_nat i <? Z.of_nat pairs - 1 then
      let exitMin := parseTimeToMinutes (jsIndex uscite i) in
      let nextEntryMin := parseTimeToMinutes (jsIndex entrate (i + 1)) in
      match exitMin, nextEntryMin with
      | Some exitMin, Some nextEntryMin =>
          if exitMin <? nextEntryMin then breakMinutes + (nextEntryMin - exitMin)
          else breakMinutes
      | _, _ => breakMinutes
      end
    else breakMinutes in
  (workedMinutes, breakMinutes).

(** [entries.filter(e => e.type === kind).map(e => e.time)] *)
Definition timesOf (kind : string) (entries : list Entry) : list (option string) :=
  time <$> filter (λ e, type e = kind) entries.

Definition calculatePairMinutes (entries : option (list Entry)) : Completion Pair.t :=
  match entries with
  | None => Throw TypeError
  | Some entries =>
      let entrate := timesOf "entrata" entries in
      let uscite := timesOf "uscita" entries in
      let hasIncomplete := (length uscite <? length entrate)%nat in
      let pairs := (length entrate `min` length uscite)%nat in
      let '(workedMinutes, breakMinutes) :=
        foldl (pairStep entrate uscite pairs) (0, 0) (seq 0 pairs) in
      Normal (Pair.mk workedMinutes hasIncomplete pairs breakMinutes)
  end.

Definition shouldApplyPause (workedMinutes : Z) (dateKey : string) : bool :=
  if isFriday (parseDateISO dateKey) then false
  else
    let workedHours := (inject_Z workedMinutes / 60)%Q in
    Qgtb workedHours CONFIG.PAUSE_THRESHOLD_HOURS.

(** The value of the local [pauseMinutes] of [calculateDayHours]. *)
Definition pauseMinutesFor (p : Pair.t) (dateKey : string) : Z :=
  let friday := isFriday (parseDateISO dateKey) in
  if negb friday then
    if (Pair.pairCount p <=? 1)%nat then
      if shouldApplyPause (Pair.workedMinutes p) dateKey
      then CONFIG.PAUSE_MINUTES else 0
    else
      if Pair.breakMinutes p <? CONFIG.PAUSE_MINUTES
      then CONFIG.PAUSE_MINUTES - Pair.breakMinutes p else 0
  else 0.

(** The early return of [calculateDayHours] for a smart / assente day. *)
Definition specialDay (entries : option (list Entry)) : Completion (option Day.t) :=
  len ← arrayLength entries;
  if (len =? 1)%nat then
    entry ← arrayAt entries 0;
    ty ← prop entry type;
    if bool_decide (ty = "smart") || bool_decide (ty = "assente") then
      hours ← prop entry hoursOrZero;
      let minutes := Math_round (hours * 60) in
      mret (Some (Day.mk minutes (minutesToTime minutes) false None None None))
    else mret None
  else mret None.

Definition calculateDayHours (entries : option (list Entry)) (dateKey : string)
    : Completion Day.t :=
  if noEntries entries then
    mret (Day.mk 0 "00:00" false None None None)
  else
    special ← specialDay entries;
    match special with
    | Some result => mret result
    | None =>
        p ← calculatePairMinutes entries;
        let pauseMinutes := pauseMinutesFor p dateKey in
        let netMinutes := 0 `max` (Pair.workedMinutes p - pauseMinutes) in
        mret (Day.mk netMinutes (minutesToTime netMinutes) (Pair.hasIncomplete p)
                (Some (Pair.workedMinutes p))
                (Some (0 <? pauseMinutes))
                (Some (if (1 <? Pair.pairCount p)%nat then Pair.breakMinutes p
                       else if 0 <? pauseMinutes then CONFIG.PAUSE_MINUTES else 0)))
    end.

Definition weekTotalStep (acc : Z * gmap string Day.t)
    (kv : string * option (list Entry)) : Completion (Z * gmap string Day.t) :=
  let '(totalMinutes, byDay) := acc in
  let '(dateKey, entries) := kv in
  dayResult ← calculateDayHours entries dateKey;
  mret (totalMinutes + Day.minutes dayResult, <[dateKey := dayResult]> byDay).

Definition calculateWeekTotal (weekEntries : WeekEntries) : Completion WeekTotal.t :=
  '(totalMinutes, byDay) ← forOf weekTotalStep (0, ∅) (map_to_list weekEntries);
  mret (WeekTotal.mk totalMinutes (minutesToTime totalMinutes) byDay).

Definition calculateBalance (workedMinutes : Z) : Balance.t :=
  let balanceMinutes := workedMinutes - CONFIG.WEEKLY_TARGET_MINUTES in
  let sign : string := if 0 <=? balanceMinutes then "+" else "" in
  Balance.mk balanceMinutes (sign +:+ minutesToTime balanceMinutes)
    (0 <? balanceMinutes) (balanceMinutes <? 0) (balanceMinutes =? 0).

Definition hoursToMinutes (hours : Q) : Z := Math_round (hours * 60).

Definition calculateRemaining (workedMinutes : Z) : Remaining.t :=
  let remaining := 0 `max` (CONFIG.WEEKLY_TARGET_MINUTES - workedMinutes) in
  Remaining.mk remaining (minutesToTime remaining).

Definition getDailyTarget (dateKey : string) : Q :=
  if isFriday (parseDateISO dateKey)
  then CONFIG.FRIDAY_TARGET_HOURS
  else CONFIG.DAILY_TARGET_HOURS.

Definition formatDeltaMinutes (minutes : Z) : string :=
  let sign : string := if 0 <=? minutes then "+" else "-" in
  let absMinutes := Z.abs minutes in
  let hours := absMinutes `div` 60 in
  let mins := absMinutes `mod` 60 in
  if hours =? 0 then sign +:+ pretty mins +:+ "min"
  else if mins =? 0 then sign +:+ pretty hours +:+ "h"
  else sign +:+ pretty hours +:+ "h " +:+ pretty mins +:+ "m".

(** [entries.length === 1 && entries[0].type === 'assente'] *)
Definition soleAbsent (entries : option (list Entry)) : Completion bool :=
  len ← arrayLength entries;
  if (len =? 1)%nat then
    entry ← arrayAt entries 0;
    ty ← prop entry type;
    mret (bool_decide (ty = "assente"))
  else mret false.

Definition calculateDayDelta (entries : option (list Entry)) (dateKey : string)
    : Completion (option Delta.t) :=
  if noEntries entries then mret None
  else
    absent ← soleAbsent entries;
    if (absent : bool) then mret None
    else
      dayHours ← calculateDayHours entries dateKey;
      let targetMinutes := hoursToMinutes (getDailyTarget dateKey) in
      let deltaMinutes := Day.minutes dayHours - targetMinutes in
      mret (Some (Delta.mk deltaMinutes (formatDeltaMinutes deltaMinutes)
                    (0 <? deltaMinutes) (deltaMinutes <? 0) (deltaMinutes =? 0)
                    (Day.hasIncomplete dayHours))).

(** Body of the accumulation loop of [calculateFridayExitSuggestion]. *)
Definition extraStep (weekEntries : WeekEntries) (fridayDateKey : string)
    (extraMinutes : Z) (dateKey : string) : Completion Z :=
  if bool_decide (dateKey = fridayDateKey) then mret extraMinutes
  else
    let entries := weekGet weekEntries dateKey in
    if noEntries entries then mret extraMinutes
    else
      delta ← calculateDayDelta entries dateKey;
      match delta with
      | Some delta =>
          if negb (Delta.hasIncomplete delta)
          then mret (extraMinutes + Delta.minutes delta)
          else mret extraMinutes
      | None => mret extraMinutes
      end.

(** [Object.keys(weekEntries).sort()]: the keys in ascending order of
    their character codes. *)
Definition sortedKeys (weekEntries : WeekEntries) : list string :=
  merge_sort String.le ((map_to_list weekEntries).*1).

(** [fridayEntries.length === 1 && (fridayEntries[0].type === 'smart' ||
    fridayEntries[0].type === 'assente')] *)
Definition fridaySpecial (fridayEntries : list Entry) : Completion bool :=
  if (length fridayEntries =? 1)%nat then
    ty ← prop (fridayEntries !! 0%nat) type;
    mret (bool_decide (ty = "smart") || bool_decide (ty = "assente"))
  else mret false.

(** The value of the local [exitTime] of [calculateFridayExitSuggestion]. *)
Definition fridayExitTime (fridayEntries : list Entry) (adjustedTarget : Z)
    : option string :=
  let hasFridayEntrata := existsb (λ e, bool_decide (type e = "entrata")) fridayEntries in
  let hasFridayUscita := existsb (λ e, bool_decide (type e = "uscita")) fridayEntries in
  if hasFridayEntrata && negb hasFridayUscita then
    match List.find (λ e, bool_decide (type e = "entrata")) fridayEntries with
    | Some entrataEntry =>
        match parseTimeToMinutes (time entrataEntry) with
        | Some entrataMin =>
            let exitMin := entrataMin + adjustedTarget in
            Some (minutesToTime exitMin)
        | None => None
        end
    | None => None
    end
  else None.

Definition calculateFridayExitSuggestion (weekEntries : WeekEntries)
    : Completion (option Suggestion.t) :=
  let sortedDates := sortedKeys weekEntries in
  if (length sortedDates =? 0)%nat then mret None
  else
    match List.find (λ dk, isFriday (parseDateISO dk)) sortedDates with
    | None => mret None
    | Some fridayDateKey =>
        if bool_decide (fridayDateKey = "") then mret None
        else
          extraMinutes ← forOf (extraStep weekEntries fridayDateKey) 0 sortedDates;
          let fridayEntries := default [] (weekGet weekEntries fridayDateKey) in
          let hasFridayEntrata :=
            existsb (λ e, bool_decide (type e = "entrata")) fridayEntries in
          let hasFridayUscita :=
            existsb (λ e, bool_decide (type e = "uscita")) fridayEntries in
          isFridaySpecial ← fridaySpecial fridayEntries;
          if (isFridaySpecial : bool) then mret None
          else
            let fridayTargetMinutes := hoursToMinutes CONFIG.FRIDAY_TARGET_HOURS in
            let adjustedTarget := 0 `max` (fridayTargetMinutes - extraMinutes) in
            let exitTime := fridayExitTime fridayEntries adjustedTarget in
            mret (Some (Suggestion.mk exitTime extraMinutes adjustedTarget
                          fridayDateKey hasFridayEntrata
                          (hasFridayUscita && hasFridayEntrata)))
    end.

Definition formatHoursReadable (minutes : Z) : string :=
  let hours := Z.abs minutes `div` 60 in
  let mins := Z.abs minutes `mod` 60 in
  let sign : string := if minutes <? 0 then "-" else "" in
  if mins =? 0 then sign +:+ pretty hours +:+ "h"
  else sign +:+ pretty hours +:+ "h " +:+ pretty mins +:+ "m".

Definition minutesToHours (minutes : Z) : Q :=
  (inject_Z (Math_round (inject_Z minutes / 60 * 100)) / 100)%Q.

(** [includePause] has the default value [true], taken when the argument
    is [undefined]. *)
Definition estimateExitTime (entrataTime : option string) (targetHours : Q)
    (includePause : option bool) : string :=
  let includePause := default true includePause in
  match parseTimeToMinutes entrataTime with
  | None => "--:--"
  | Some entrataMinutes =>
      let targetMinutes := hoursToMinutes targetHours in
      let targetMinutes :=
        if includePause && Qgtb targetHours CONFIG.PAUSE_THRESHOLD_HOURS
        then targetMinutes + CONFIG.PAUSE_MINUTES else targetMinutes in
      let exitMinutes := entrataMinutes + targetMinutes in
      minutesToTime exitMinutes
  end.

Definition getSmartHours (dateKey : string) : Q :=
  if isFriday (parseDateISO dateKey)
  then CONFIG.SMART_HOURS_FRIDAY
  else CONFIG.SMART_HOURS_DEFAULT.

End TimeCalculator.

(** ** Models of the imported helpers *)

Module Validators.

Definition digitValue (c : ascii) : option Z :=
  let n := Z.of_N (N_of_ascii c) in
  if (48 <=? n) && (n <=? 57) then Some (n - 48) else None.

(** Modelled from the spec: [parseTimeToMinutes] of [utils/Validators.js]
    (the spec's [parseTime]), which is not among the sources.  It parses
    [HH:MM] (24-hour) into minutes since midnight and returns [null] for
    any other input, [undefined] included. *)
Definition parseTimeToMinutes (s : option string) : option Z :=
  match s with
  | Some (String h1 (String h2 (String sep (String m1 (String m2 EmptyString))))) =>
      if bool_decide (sep = ":"%char) then
        a ← digitValue h1; b ← digitValue h2;
        c ← digitValue m1; d ← digitValue m2;
        let hh := 10 * a + b in
        let mm := 10 * c + d in
        if (hh <? 24) && (mm <? 60) then Some (hh * 60 + mm) else None
      else None
  | _ => None
  end.

(** Two-digit zero padding of a non-negative number. *)
Definition pad2 (n : Z) : string :=
  if n <? 10 then "0" +:+ pretty n else pretty n.

(** Modelled from the spec: [minutesToTime] of [utils/Validators.js] (the
    spec's [formatMinutes]), which is not among the sources:
    [hours = floor(|m|/60)], [mins = |m| mod 60], sign-prefixed,
    zero-padded [HH:MM]. *)
Definition minutesToTime (m : Z) : string :=
  let sign : string := if m <? 0 then "-" else "" in
  let hours := Z.abs m `div` 60 in
  let mins := Z.abs m `mod` 60 in
  sign +:+ pad2 hours +:+ ":" +:+ pad2 mins.

(** The strings the spec calls well-formed times: [HH:MM], 24-hour. *)
Definition wellFormedTime (s : string) : Prop :=
  ∃ hh mm, 0 ≤ hh < 24 ∧ 0 ≤ mm < 60 ∧ s = pad2 hh +:+ ":" +:+ pad2 mm.

End Validators.

Module DateUtils.

(** A local calendar date; [month] counts from 1. *)
Record Date : Type := mkDate { year : Z; month : Z; day : Z }.

Fixpoint digitsValue (acc : Z) (s : string) : option Z :=
  match s with
  | EmptyString => Some acc
  | String c s' => d ← Validators.digitValue c; digitsValue (10 * acc + d) s'
  end.

Definition parseNumber (s : string) : option Z :=
  match s with
  | EmptyString => None
  | _ => digitsValue 0 s
  end.

Fixpoint splitOn (sep : ascii) (s : string) : list string :=
  match s with
  | EmptyString => [EmptyString]
  | String c s' =>
      if bool_decide (c = sep) then EmptyString :: splitOn sep s'
      else
        match splitOn sep s' with
        | part :: parts => String c part :: parts
        | [] => [String c EmptyString]
        end
  end.

(** Modelled from the spec: [parseDateISO] of [utils/DateUtils.js], which
    is not among the sources.  The date is built from the separately
    parsed year, month and day of a [YYYY-MM-DD] key; [None] stands for
    an invalid date. *)
Definition parseDateISO (dateKey : string) : option Date :=
  match splitOn "-" dateKey with
  | [y; m; d] =>
      y ← parseNumber y; m ← parseNumber m; d ← parseNumber d;
      if (1 <=? m) && (m <=? 12) && (1 <=? d) && (d <=? 31)
      then Some (mkDate y m d) else None
  | _ => None
  end.

(** Days since 1970-01-01 in the proleptic Gregorian calendar. *)
Definition daysFromCivil (date : Date) : Z :=
  let y := if month date <=? 2 then year date - 1 else year date in
  let era := y `div` 400 in
  let yoe := y - era * 400 in
  let mp := (month date + 9) `mod` 12 in
  let doy := (153 * mp + 2) `div` 5 + day date - 1 in
  let doe := yoe * 365 + yoe `div` 4 - yoe `div` 100 + doy in
  era * 146097 + doe - 719468.

(** [date.getDay()]: 0 is Sunday; 1970-01-01 was a Thursday. *)
Definition getDay (date : Date) : Z := (daysFromCivil date + 4) `mod` 7.

(** Modelled from the spec: [isFriday] of [utils/DateUtils.js], which is
    not among the sources: the weekday test on a local date. *)
Definition isFriday (date : option Date) : bool :=
  match date with
  | Some date => getDay date =? 5
  | None => false
  end.

End DateUtils.

(** The engine's imports, bound to the modelled helpers. *)
Definition SpecUtils : Utils := {|
  JsDate := option DateUtils.Date;
  parseTimeToMinutes := Validators.parseTimeToMinutes;
  minutesToTime := Validators.minutesToTime;
  parseDateISO := DateUtils.parseDateISO;
  isFriday := DateUtils.isFriday
|}.

(** ** Reference definitions for the statements *)

Definition Zsum (l : list Z) : Z := foldr Z.add 0 l.

Section Reference.
Context {U : Utils}.

(** Minutes from the instant [from] to the instant [to]: the difference
    when both times parse and it is strictly positive, zero otherwise. *)
Definition spanMinutes (from to : option string) : Z :=
  match parseTimeToMinutes from, parseTimeToMinutes to with
  | Some a, Some b => 0 `max` (b - a)
  | _, _ => 0
  end.

(** Sum of the worked intervals [outs[i] - ins[i]] for [i < n]. *)
Definition workedSum (ins outs : list (option string)) (n : nat) : Z :=
  Zsum ((λ i, spanMinutes (jsIndex ins i) (jsIndex outs i)) <$> seq 0 n).

(** Sum of the gaps [ins[i+1] - outs[i]] over the boundaries [i < n - 1]. *)
Definition breakSum (ins outs : list (option string)) (n : nat) : Z :=
  Zsum ((λ i, spanMinutes (jsIndex outs i) (jsIndex ins (i + 1))) <$> seq 0 (n - 1)).

(** A day's entries are a sole record of kind [smart] or [assente]. *)
Definition soleSpecial (entries : list Entry) : Prop :=
  ∃ e, entries = [e] ∧ (type e = "smart" ∨ type e = "assente").

(** What the entries under one date key are worth in extra minutes: the
    day's delta, unless the day has no entries or its delta is absent or
    flagged incomplete. *)
Definition dayExtra (weekEntries : WeekEntries) (dateKey : string) : Z :=
  if noEntries (weekGet weekEntries dateKey) then 0
  else
    match calculateDayDelta (weekGet weekEntries dateKey) dateKey with
    | Normal (Some delta) =>
        if Delta.hasIncomplete delta then 0 else Delta.minutes delta
    | _ => 0
    end.

(** What one date key adds to the extra minutes accumulated for Friday:
    nothing for a Friday, [dayExtra] for any other day. *)
Definition extraOf (weekEntries : WeekEntries) (dateKey : string) : Z :=
  if isFriday (parseDateISO dateKey) then 0 else dayExtra weekEntries dateKey.

(** [fridayDateKey] is the Friday of the week: a key of the mapping, a
    Friday, and the only one. *)
Definition theFriday (weekEntries : WeekEntries) (fridayDateKey : string) : Prop :=
  is_Some (weekEntries !! fridayDateKey)
  ∧ isFriday (parseDateISO fridayDateKey) = true
  ∧ ∀ k, is_Some (weekEntries !! k) → isFriday (parseDateISO k) = true →
         k = fridayDateKey.

(** The day has an open clock-in, one without a matching clock-out, as
    the pair resolution reports it. *)
Definition openClockIn (entries : list Entry) : Prop :=
  ∃ p, calculatePairMinutes (Some entries) = Normal p ∧ Pair.hasIncomplete p = true.

(** The clock-ins and the clock-outs of a day, in list order. *)
Definition clockIns (entries : list Entry) : list Entry :=
  filter (λ e, type e = "entrata") entries.

Definition clockOuts (entries : list Entry) : list Entry :=
  filter (λ e, type e = "uscita") entries.

End Reference.

(** ** Scenarios *)

Definition entrata (t : string) : Entry := mkEntry "entrata" (Some t) None.
Definition uscita (t : string) : Entry := mkEntry "uscita" (Some t) None.
Definition smart (h : Q) : Entry := mkEntry "smart" None (Some h).
Definition assente (h : Q) : Entry := mkEntry "assente" None (Some h).

(** Monday +30, Tuesday +15, Wednesday left open, Thursday on target,
    Friday started at 07:50. *)
Definition weekOpenFriday : WeekEntries :=
  list_to_map [
    ("2026-02-23", Some [entrata "08:00"; uscita "16:30"]);
    ("2026-02-24", Some [entrata "08:00"; uscita "16:15"]);
    ("2026-02-25", Some [entrata "08:00"]);
    ("2026-02-26", Some [entrata "08:00"; uscita "16:00"]);
    ("2026-02-27", Some [entrata "07:50"])
  ].

(** A Tuesday, one pair of nine hours. *)
Definition tuesdayOnePair : list Entry := [entrata "08:00"; uscita "17:00"].

(** A Wednesday, two pairs with a break of twenty minutes. *)
Definition wednesdayTwoPairs : list Entry :=
  [entrata "08:00"; uscita "12:00"; entrata "12:20"; uscita "16:10"].

(** A Friday, one pair of six hours. *)
Definition fridayOnePair : list Entry := [entrata "08:00"; uscita "14:00"].

(** A Friday with a closed morning and a second, still open, clock-in. *)
Definition fridayReentry : list Entry :=
  [entrata "08:00"; uscita "12:00"; entrata "12:30"].

Definition weekReentry : WeekEntries :=
  list_to_map [
    ("2026-02-26", Some [entrata "08:00"; uscita "16:00"]);
    ("2026-02-27", Some fridayReentry)
  ].

(** A full week: Monday +30, Tuesday +15, Wednesday +10, Thursday smart
    working, Friday on target. *)
Definition weekFull : WeekEntries :=
  list_to_map [
    ("2026-02-23", Some [entrata "08:00"; uscita "16:30"]);
    ("2026-02-24", Some [entrata "08:00"; uscita "16:15"]);
    ("2026-02-25", Some wednesdayTwoPairs);
    ("2026-02-26", Some [smart 7.5]);
    ("2026-02-27", Some fridayOnePair)
  ].

(** ** Properties *)

Lemma Zsum_cons (x : Z) (l : list Z) : Zsum (x :: l) = x + Zsum l.
Proof. reflexivity. Qed.

Lemma Zsum_app (l1 l2 : list Z) : Zsum (l1 ++ l2) = Zsum l1 + Zsum l2.
Proof.
  induction l1 as [|x l1 IH]; [done|].
  rewrite <- app_comm_cons, !Zsum_cons, IH. lia.
Qed.

Lemma Zsum_Permutation (l1 l2 : list Z) : l1 ≡ₚ l2 → Zsum l1 = Zsum l2.
Proof. induction 1; rewrite ?Zsum_cons; lia. Qed.

Lemma returns_Normal {A : Type} (a : A) : returns (Normal a).
Proof. by exists a. Qed.

Lemma bind_Normal {A B : Type} (a : A) (k : A → Completion B) : Normal a ≫= k = k a.
Proof. reflexivity. Qed.

Section Properties.
Context {U : Utils}.

(** *** Pair resolution *)

Lemma spanMinutes_unparseable_l (from to : option string) :
  parseTimeToMinutes from = None → spanMinutes from to = 0.
Proof. unfold spanMinutes. by intros ->. Qed.

Lemma spanMinutes_unparseable_r (from to : option string) :
  parseTimeToMinutes to = None → spanMinutes from to = 0.
Proof. unfold spanMinutes. intros ->. by destruct (parseTimeToMinutes from). Qed.

(** One turn of the loop adds the span of pair [i] to the worked minutes
    and, unless [i] is the last pair, the gap after it to the break. *)
Lemma pairStep_spans (ins outs : list (option string)) (n : nat) (w b : Z) (i : nat) :
  pairStep ins outs n (w, b) i =
    (w + spanMinutes (jsIndex ins i) (jsIndex outs i),
     b + if Z.of_nat i <? Z.of_nat n - 1
         then spanMinutes (jsIndex outs i) (jsIndex ins (i + 1)) else 0).
Proof.
  unfold pairStep, spanMinutes.
  destruct (parseTimeToMinutes (jsIndex ins i)) as [a|],
           (parseTimeToMinutes (jsIndex outs i)) as [c|],
           (parseTimeToMinutes (jsIndex ins (i + 1))) as [d|];
    repeat case_match; f_equal; lia.
Qed.

Lemma pairLoop_spans (ins outs : list (option string)) (n k m : nat) (w b : Z) :
  foldl (pairStep ins outs n) (w, b) (seq k m) =
    (w + Zsum ((λ i, spanMinutes (jsIndex ins i) (jsIndex outs i)) <$> seq k m),
     b + Zsum ((λ i, if Z.of_nat i <? Z.of_nat n - 1
                     then spanMinutes (jsIndex outs i) (jsIndex ins (i + 1))
                     else 0) <$> seq k m)).
Proof.
  revert k w b. induction m as [|m IH]; intros k w b.
  - simpl. f_equal; lia.
  - cbn [seq foldl]. rewrite pairStep_spans, IH, fmap_cons, !fmap_cons, !Zsum_cons.
    f_equal; lia.
Qed.

(** The guard [i < pairs - 1] cuts the break sum down to the boundaries. *)
Lemma guarded_boundaries (g : nat → Z) (n : nat) :
  Zsum ((λ i, if Z.of_nat i <? Z.of_nat n - 1 then g i else 0) <$> seq 0 n)
  = Zsum (g <$> seq 0 (n - 1)).
Proof.
  destruct n as [|n]; [done|].
  replace (S n - 1)%nat with n by lia.
  rewrite seq_S, fmap_app, Zsum_app. simpl.
  rewrite (proj2 (Z.ltb_ge _ _)) by lia.
  rewrite Z.add_0_r. f_equal.
  apply list_fmap_ext. intros j i Hi.
  apply lookup_seq in Hi as [-> Hlt].
  rewrite (proj2 (Z.ltb_lt _ _)) by lia. done.
Qed.

(** C2: [calculatePairMinutes] returns, for every list of entries, the
    pair count [min (#ins) (#outs)] of the order-preserving partition by
    kind, the sum of the strictly positive pair spans as worked minutes,
    the flag "more clock-ins than clock-outs" as [hasIncomplete], and the
    sum of the strictly positive gaps over the [pairCount - 1] boundaries
    as break minutes; a span with an unparseable end is zero, so it
    leaves the other pairs and boundaries untouched. *)
Theorem calculatePairMinutes_spec (entries : list Entry) :
  let ins := time <$> filter (λ e, type e = "entrata") entries in
  let outs := time <$> filter (λ e, type e = "uscita") entries in
  ∃ r, calculatePairMinutes (Some entries) = Normal r
    ∧ Pair.pairCount r = (length ins `min` length outs)%nat
    ∧ Pair.workedMinutes r = workedSum ins outs (Pair.pairCount r)
    ∧ (Pair.hasIncomplete r = true ↔ (length ins > length outs)%nat)
    ∧ Pair.breakMinutes r = breakSum ins outs (Pair.pairCount r)
    ∧ (∀ from to d,
         spanMinutes from to = d →
         match parseTimeToMinutes from, parseTimeToMinutes to with
         | Some a, Some b => d = if 0 <? b - a then b - a else 0
         | _, _ => d = 0
         end).
Proof.
  intros ins outs. unfold calculatePairMinutes, timesOf.
  fold ins outs. rewrite pairLoop_spans, guarded_boundaries. simpl.
  eexists. split; [reflexivity|]. simpl.
  repeat split.
  - intros ?%Nat.ltb_lt. lia.
  - intros ?. apply Nat.ltb_lt. lia.
  - intros from to d <-. unfold spanMinutes.
    repeat case_match; lia.
Qed.

(** *** Day accounting *)

Lemma calculatePairMinutes_returns (entries : list Entry) :
  returns (calculatePairMinutes (Some entries)).
Proof.
  unfold calculatePairMinutes.
  destruct (foldl _ _ _) as [w b]. apply returns_Normal.
Qed.

Lemma shouldApplyPause_threshold (workedMinutes : Z) (dateKey : string) :
  isFriday (parseDateISO dateKey) = false →
  shouldApplyPause workedMinutes dateKey = (360 <? workedMinutes).
Proof.
  intros Hfri. unfold shouldApplyPause. rewrite Hfri.
  unfold Qgtb, Qle_bool, CONFIG.PAUSE_THRESHOLD_HOURS. simpl.
  destruct (360 <? workedMinutes) eqn:Hlt.
  - apply Z.ltb_lt in Hlt. apply negb_true_iff, Z.leb_gt. lia.
  - apply Z.ltb_ge in Hlt. apply negb_false_iff, Z.leb_le. lia.
Qed.

Lemma hoursToMinutes_daily_target (dateKey : string) :
  hoursToMinutes (getDailyTarget dateKey)
  = if isFriday (parseDateISO dateKey) then 360 else 450.
Proof. unfold getDailyTarget. by destruct (isFriday _). Qed.

(** The early return for a special day, by the shape of the list. *)
Lemma specialDay_shape (entries : list Entry) :
  specialDay (Some entries) = Normal
    match entries with
    | [e] =>
        if bool_decide (type e = "smart") || bool_decide (type e = "assente")
        then let minutes := Math_round (hoursOrZero e * 60) in
             Some (Day.mk minutes (minutesToTime minutes) false None None None)
        else None
    | _ => None
    end.
Proof.
  destruct entries as [|e [|e' entries]]; [done| |done].
  unfold specialDay. simpl. by case_match.
Qed.

Lemma specialDay_pair_path (entries : list Entry) :
  ¬ soleSpecial entries → specialDay (Some entries) = Normal None.
Proof.
  intros Hns. rewrite specialDay_shape.
  destruct entries as [|e [|e' entries]]; try done.
  destruct (bool_decide (type e = "smart")) eqn:Hs;
    [apply bool_decide_eq_true in Hs; destruct Hns; exists e; auto|].
  destruct (bool_decide (type e = "assente")) eqn:Ha;
    [apply bool_decide_eq_true in Ha; destruct Hns; exists e; auto|].
  done.
Qed.

Lemma calculateDayHours_returns (entries : option (list Entry)) (dateKey : string) :
  returns (calculateDayHours entries dateKey).
Proof.
  unfold calculateDayHours.
  destruct entries as [entries|]; [|apply returns_Normal].
  destruct (noEntries (Some entries)); [apply returns_Normal|].
  rewrite specialDay_shape. simpl.
  destruct (calculatePairMinutes_returns entries) as [p Hp].
  repeat case_match; simplify_eq; try apply returns_Normal;
    rewrite Hp; apply returns_Normal.
Qed.

(** C1: on the pair path of [calculateDayHours] the deducted pause is 0
    on a Friday (so [pauseApplied] is false); on another day with at most
    one pair it is 30 exactly when the worked minutes exceed 360, and 0
    otherwise; on another day with two pairs or more it is
    [max 0 (30 - breakMinutes)]. *)
Theorem calculateDayHours_break_policy (entries : list Entry) (dateKey : string) :
  entries ≠ [] → ¬ soleSpecial entries →
  ∃ p day,
    calculatePairMinutes (Some entries) = Normal p
    ∧ calculateDayHours (Some entries) dateKey = Normal day
    ∧ let pause := pauseMinutesFor p dateKey in
      Day.minutes day = 0 `max` (Pair.workedMinutes p - pause)
      ∧ Day.grossMinutes day = Some (Pair.workedMinutes p)
      ∧ Day.pauseApplied day = Some (0 <? pause)
      ∧ (isFriday (parseDateISO dateKey) = true →
           pause = 0 ∧ Day.pauseApplied day = Some false)
      ∧ (isFriday (parseDateISO dateKey) = false → (Pair.pairCount p ≤ 1)%nat →
           (pause = 30 ↔ 360 < Pair.workedMinutes p)
           ∧ (pause = 0 ↔ Pair.workedMinutes p ≤ 360))
      ∧ (isFriday (parseDateISO dateKey) = false → (Pair.pairCount p ≥ 2)%nat →
           pause = 0 `max` (30 - Pair.breakMinutes p)
           ∧ (30 ≤ Pair.breakMinutes p → pause = 0)).
Proof.
  intros Hne Hns.
  destruct (calculatePairMinutes_returns entries) as [p Hp].
  exists p. unfold calculateDayHours.
  assert (noEntries (Some entries) = false) as ->
    by (destruct entries; [done | reflexivity]).
  rewrite (specialDay_pair_path _ Hns), bind_Normal, Hp, bind_Normal.
  eexists. split; [done|]. split; [reflexivity|]. simpl.
  split; [done|]. split; [done|]. split; [done|].
  unfold pauseMinutesFor, CONFIG.PAUSE_MINUTES.
  split; [|split].
  - by intros ->.
  - intros Hfri Hle. rewrite Hfri. simpl.
    rewrite (proj2 (Nat.leb_le _ _) Hle).
    rewrite (shouldApplyPause_threshold _ _ Hfri).
    destruct (360 <? Pair.workedMinutes p) eqn:Hlt;
      [apply Z.ltb_lt in Hlt | apply Z.ltb_ge in Hlt]; lia.
  - intros Hfri Hge. rewrite Hfri. simpl.
    rewrite (proj2 (Nat.leb_gt _ _)) by lia.
    destruct (Pair.breakMinutes p <? 30) eqn:Hlt;
      [apply Z.ltb_lt in Hlt | apply Z.ltb_ge in Hlt]; lia.
Qed.

Lemma Math_round_proper (x y : Q) : (x == y)%Q → Math_round x = Math_round y.
Proof. intros Heq. unfold Math_round. apply Qfloor_comp. by rewrite Heq. Qed.

Lemma hoursOrZero_hours (e : Entry) (h : Q) :
  hours e = Some h → (hoursOrZero e == h)%Q.
Proof.
  intros Hh. unfold hoursOrZero. rewrite Hh.
  destruct (Qeq_bool h 0) eqn:Hz; [|reflexivity].
  apply Qeq_bool_iff in Hz. by rewrite Hz.
Qed.

(** C6: a sole [smart] or [assente] entry carrying [h] hours is accounted
    as [round (h * 60)] minutes, complete, whatever the date, with no
    pair resolution and no pause (the pause fields are absent); a day
    without entries is accounted as zero minutes, complete. *)
Theorem calculateDayHours_special_day (e : Entry) (h : Q) (dateKey : string) :
  type e = "smart" ∨ type e = "assente" → hours e = Some h →
  (∃ day, calculateDayHours (Some [e]) dateKey = Normal day
     ∧ Day.minutes day = Math_round (h * 60)
     ∧ Day.formatted day = minutesToTime (Math_round (h * 60))
     ∧ Day.hasIncomplete day = false
     ∧ Day.grossMinutes day = None
     ∧ Day.pauseApplied day = None
     ∧ Day.breakMinutes day = None)
  ∧ calculateDayHours (Some []) dateKey = Normal (Day.mk 0 "00:00" false None None None)
  ∧ calculateDayHours None dateKey = Normal (Day.mk 0 "00:00" false None None None).
Proof.
  intros Hty Hh. split; [|done].
  assert (Math_round (hoursOrZero e * 60) = Math_round (h * 60)) as Hround.
  { apply Math_round_proper. by rewrite (hoursOrZero_hours _ _ Hh). }
  unfold calculateDayHours. simpl noEntries. cbv iota.
  rewrite specialDay_shape.
  assert (bool_decide (type e = "smart") || bool_decide (type e = "assente") = true) as ->.
  { destruct Hty as [-> | ->]; reflexivity. }
  simpl. rewrite Hround. eexists. split; [reflexivity|]. done.
Qed.

(** *** Daily delta *)

Lemma soleAbsent_shape (entries : list Entry) :
  soleAbsent (Some entries) = Normal
    match entries with
    | [e] => bool_decide (type e = "assente")
    | _ => false
    end.
Proof. by destruct entries as [|e [|e' entries]]. Qed.

Lemma calculateDayDelta_returns (entries : option (list Entry)) (dateKey : string) :
  returns (calculateDayDelta entries dateKey).
Proof.
  unfold calculateDayDelta.
  destruct entries as [entries|]; [|apply returns_Normal].
  destruct (noEntries (Some entries)); [apply returns_Normal|].
  rewrite soleAbsent_shape. simpl.
  destruct (calculateDayHours_returns (Some entries) dateKey) as [day Hday].
  repeat case_match; try apply returns_Normal; rewrite Hday; apply returns_Normal.
Qed.

Lemma calculateDayDelta_shape (entries : list Entry) (dateKey : string) (day : Day.t) :
  calculateDayHours (Some entries) dateKey = Normal day →
  calculateDayDelta (Some entries) dateKey = Normal
    (let deltaMinutes := Day.minutes day - hoursToMinutes (getDailyTarget dateKey) in
     let delta :=
       Delta.mk deltaMinutes (formatDeltaMinutes deltaMinutes)
         (0 <? deltaMinutes) (deltaMinutes <? 0) (deltaMinutes =? 0)
         (Day.hasIncomplete day) in
     match entries with
     | [] => None
     | [e] => if bool_decide (type e = "assente") then None else Some delta
     | _ => Some delta
     end).
Proof.
  intros Hday. unfold calculateDayDelta.
  destruct entries as [|e entries]; [done|].
  simpl noEntries. cbv iota. rewrite soleAbsent_shape.
  destruct entries as [|e' entries]; simpl.
  - destruct (bool_decide (type e = "assente")); [done|]. by rewrite Hday.
  - by rewrite Hday.
Qed.

(** C5: [calculateDayDelta] is null exactly for an absent or empty list
    and for a sole [assente] entry; otherwise its minutes are the day's
    net minutes less the daily target, 360 on a Friday and 450 on any
    other day, and its three flags give the sign of that difference. *)
Theorem calculateDayDelta_spec (entries : option (list Entry)) (dateKey : string) :
  let target := if isFriday (parseDateISO dateKey) then 360 else 450 in
  let noDelta :=
    entries = None ∨ entries = Some [] ∨ ∃ e, entries = Some [e] ∧ type e = "assente" in
  (calculateDayDelta entries dateKey = Normal None ↔ noDelta)
  ∧ (noDelta ∨
     ∃ day delta,
       calculateDayHours entries dateKey = Normal day
       ∧ calculateDayDelta entries dateKey = Normal (Some delta)
       ∧ Delta.minutes delta = Day.minutes day - target
       ∧ (Delta.isPositive delta = true ↔ 0 < Delta.minutes delta)
       ∧ (Delta.isNegative delta = true ↔ Delta.minutes delta < 0)
       ∧ (Delta.isNeutral delta = true ↔ Delta.minutes delta = 0)
       ∧ Delta.hasIncomplete delta = Day.hasIncomplete day).
Proof.
  intros target noDelta. subst noDelta.
  destruct entries as [entries|]; [|split; [split|]; auto].
  destruct (calculateDayHours_returns (Some entries) dateKey) as [day Hday].
  rewrite (calculateDayDelta_shape _ _ _ Hday), Hday.
  rewrite hoursToMinutes_daily_target. fold target.
  set (deltaMinutes := Day.minutes day - target).
  assert (∀ delta, delta = Delta.mk deltaMinutes (formatDeltaMinutes deltaMinutes)
            (0 <? deltaMinutes) (deltaMinutes <? 0) (deltaMinutes =? 0)
            (Day.hasIncomplete day) →
          Delta.minutes delta = Day.minutes day - target
          ∧ (Delta.isPositive delta = true ↔ 0 < Delta.minutes delta)
          ∧ (Delta.isNegative delta = true ↔ Delta.minutes delta < 0)
          ∧ (Delta.isNeutral delta = true ↔ Delta.minutes delta = 0)
          ∧ Delta.hasIncomplete delta = Day.hasIncomplete day) as Hflags.
  { intros delta ->. simpl. rewrite !Z.ltb_lt, Z.eqb_eq. done. }
  destruct entries as [|e [|e' entries]]; simpl.
  - split; [split|]; auto.
  - destruct (bool_decide (type e = "assente")) eqn:Habs.
    + apply bool_decide_eq_true in Habs.
      split; [split|]; eauto 6.
    + apply bool_decide_eq_false in Habs. split.
      * split; [done|]. intros [?|[?|(e0 & [= <-] & ?)]]; done.
      * right. eexists _, _. split; [done|]. split; [done|]. by apply Hflags.
  - split.
    + split; [done|]. intros [?|[?|(e0 & [= ] & ?)]]; done.
    + right. eexists _, _. split; [done|]. split; [done|]. by apply Hflags.
Qed.

(** *** Week accounting *)

Lemma forOf_returns {A S : Type} (step : S → A → Completion S) (s : S) (l : list A) :
  (∀ s x, returns (step s x)) → returns (forOf step s l).
Proof.
  intros Hstep. revert s.
  induction l as [|x l IH]; intros s; [apply returns_Normal|].
  cbn [forOf]. destruct (Hstep s x) as [s' ->]. rewrite bind_Normal. apply IH.
Qed.

Lemma calculateWeekTotal_returns (weekEntries : WeekEntries) :
  returns (calculateWeekTotal weekEntries).
Proof.
  unfold calculateWeekTotal.
  destruct (forOf_returns weekTotalStep (0, ∅) (map_to_list weekEntries)) as [[t m] ->].
  - intros [t m] [k es]. unfold weekTotalStep.
    destruct (calculateDayHours_returns es k) as [day ->]. apply returns_Normal.
  - apply returns_Normal.
Qed.

(** *** Friday suggestion *)

Lemma extraStep_adds (weekEntries : WeekEntries) (fridayDateKey : string)
    (extraMinutes : Z) (dateKey : string) :
  extraStep weekEntries fridayDateKey extraMinutes dateKey =
    Normal (extraMinutes
            + if bool_decide (dateKey = fridayDateKey) then 0
              else dayExtra weekEntries dateKey).
Proof.
  unfold extraStep, dayExtra.
  destruct (bool_decide (dateKey = fridayDateKey)); [simpl; f_equal; lia|].
  destruct (noEntries (weekGet weekEntries dateKey)); [simpl; f_equal; lia|].
  destruct (calculateDayDelta_returns (weekGet weekEntries dateKey) dateKey)
    as [[delta|] ->]; rewrite bind_Normal.
  - destruct (Delta.hasIncomplete delta); simpl; f_equal; lia.
  - simpl; f_equal; lia.
Qed.

Lemma extraLoop_sum (weekEntries : WeekEntries) (fridayDateKey : string)
    (extraMinutes : Z) (keys : list string) :
  forOf (extraStep weekEntries fridayDateKey) extraMinutes keys =
    Normal (extraMinutes
            + Zsum ((λ k, if bool_decide (k = fridayDateKey) then 0
                          else dayExtra weekEntries k) <$> keys)).
Proof.
  revert extraMinutes. induction keys as [|k keys IH]; intros extraMinutes.
  - simpl. f_equal. lia.
  - cbn [forOf]. rewrite extraStep_adds, bind_Normal, IH, fmap_cons, Zsum_cons.
    f_equal. lia.
Qed.

Lemma sortedKeys_Permutation (weekEntries : WeekEntries) :
  sortedKeys weekEntries ≡ₚ (map_to_list weekEntries).*1.
Proof. apply merge_sort_Permutation. Qed.

Lemma elem_of_sortedKeys (weekEntries : WeekEntries) (k : string) :
  k ∈ sortedKeys weekEntries ↔ is_Some (weekEntries !! k).
Proof.
  rewrite sortedKeys_Permutation, list_elem_of_fmap. split.
  - intros ([k' v] & -> & Hin). apply elem_of_map_to_list in Hin. by exists v.
  - intros [v Hv]. exists (k, v). split; [done|]. by apply elem_of_map_to_list.
Qed.

Lemma find_theFriday (weekEntries : WeekEntries) (fridayDateKey : string) :
  theFriday weekEntries fridayDateKey →
  List.find (λ dk, isFriday (parseDateISO dk)) (sortedKeys weekEntries)
  = Some fridayDateKey.
Proof.
  intros (Hin & Hfri & Huniq).
  destruct (List.find _ _) as [k|] eqn:Hfind.
  - apply find_some in Hfind as [Hk Hf]. f_equal.
    apply Huniq; [|done]. by apply elem_of_sortedKeys, list_elem_of_In.
  - eapply find_none in Hfind; [|by apply list_elem_of_In, elem_of_sortedKeys].
    simpl in Hfind. congruence.
Qed.

Lemma find_no_friday (weekEntries : WeekEntries) :
  (∀ k, is_Some (weekEntries !! k) → isFriday (parseDateISO k) = false) →
  List.find (λ dk, isFriday (parseDateISO dk)) (sortedKeys weekEntries) = None.
Proof.
  intros Hno. destruct (List.find _ _) as [k|] eqn:Hfind; [|done].
  apply find_some in Hfind as [Hk Hf].
  rewrite Hno in Hf; [done|]. by apply elem_of_sortedKeys, list_elem_of_In.
Qed.

Lemma fridaySpecial_shape (fridayEntries : list Entry) :
  fridaySpecial fridayEntries = Normal
    match fridayEntries with
    | [e] => bool_decide (type e = "smart") || bool_decide (type e = "assente")
    | _ => false
    end.
Proof. by destruct fridayEntries as [|e [|e' fridayEntries]]. Qed.

Lemma special_decide (entries : list Entry) :
  match entries with
  | [e] => bool_decide (type e = "smart") || bool_decide (type e = "assente")
  | _ => false
  end = true ↔ soleSpecial entries.
Proof.
  unfold soleSpecial. destruct entries as [|e [|e' entries]].
  - split; [done|]. by intros (e & [=] & _).
  - rewrite orb_true_iff, !bool_decide_eq_true. split; [by exists e|].
    by intros (e0 & [= <-] & ?).
  - split; [done|]. by intros (e0 & [=] & _).
Qed.

(** The whole of [calculateFridayExitSuggestion], with the loop summed. *)
Lemma suggestion_shape (weekEntries : WeekEntries) :
  calculateFridayExitSuggestion weekEntries = Normal
    match List.find (λ dk, isFriday (parseDateISO dk)) (sortedKeys weekEntries) with
    | None => None
    | Some fridayDateKey =>
        if bool_decide (fridayDateKey = "") then None
        else
          let fridayEntries := default [] (weekGet weekEntries fridayDateKey) in
          if match fridayEntries with
             | [e] => bool_decide (type e = "smart") || bool_decide (type e = "assente")
             | _ => false
             end
          then None
          else
            let extra :=
              Zsum ((λ k, if bool_decide (k = fridayDateKey) then 0
                          else dayExtra weekEntries k) <$> sortedKeys weekEntries) in
            let adjusted := 0 `max` (360 - extra) in
            Some (Suggestion.mk (fridayExitTime fridayEntries adjusted) extra adjusted
                    fridayDateKey
                    (existsb (λ e, bool_decide (type e = "entrata")) fridayEntries)
                    (existsb (λ e, bool_decide (type e = "uscita")) fridayEntries
                     && existsb (λ e, bool_decide (type e = "entrata")) fridayEntries))
    end.
Proof.
  unfold calculateFridayExitSuggestion.
  destruct (sortedKeys weekEntries) as [|k0 keys] eqn:Hkeys; [done|].
  cbn [length Nat.eqb]. rewrite <- Hkeys.
  destruct (List.find _ _) as [fridayDateKey|]; [|done].
  destruct (bool_decide (fridayDateKey = "")); [done|].
  rewrite extraLoop_sum, bind_Normal, fridaySpecial_shape, bind_Normal.
  rewrite Z.add_0_l.
  change (hoursToMinutes CONFIG.FRIDAY_TARGET_HOURS) with 360.
  cbv zeta. by case_match.
Qed.

Lemma existsb_filter {A : Type} (P : A → Prop) `{∀ x, Decision (P x)} (l : list A) :
  existsb (λ x, bool_decide (P x)) l = match filter P l with [] => false | _ => true end.
Proof.
  induction l as [|x l IH]; [done|].
  cbn [existsb]. rewrite filter_cons.
  destruct (decide (P x)) as [Hx|Hx].
  - by rewrite (bool_decide_eq_true_2 _ Hx).
  - by rewrite (bool_decide_eq_false_2 _ Hx).
Qed.

Lemma find_filter {A : Type} (P : A → Prop) `{∀ x, Decision (P x)} (l : list A) :
  List.find (λ x, bool_decide (P x)) l = head (filter P l).
Proof.
  induction l as [|x l IH]; [done|].
  cbn [List.find]. rewrite filter_cons.
  destruct (decide (P x)) as [Hx|Hx].
  - by rewrite (bool_decide_eq_true_2 _ Hx).
  - by rewrite (bool_decide_eq_false_2 _ Hx).
Qed.

(** The exit time is built from the first clock-in, and only when the
    day has no clock-out. *)
Lemma fridayExitTime_shape (fridayEntries : list Entry) (adjustedTarget : Z) :
  fridayExitTime fridayEntries adjustedTarget =
    match clockIns fridayEntries, clockOuts fridayEntries with
    | e :: _, [] =>
        entrataMin ← parseTimeToMinutes (time e);
        Some (minutesToTime (entrataMin + adjustedTarget))
    | _, _ => None
    end.
Proof.
  unfold fridayExitTime, clockIns, clockOuts.
  rewrite !existsb_filter, find_filter.
  destruct (filter _ fridayEntries) as [|e ins];
    destruct (filter _ fridayEntries) as [|o outs]; try done.
Qed.

Lemma suggestion_inv (weekEntries : WeekEntries) (s : Suggestion.t) :
  calculateFridayExitSuggestion weekEntries = Normal (Some s) →
  let fridayEntries := default [] (weekGet weekEntries (Suggestion.fridayDateKey s)) in
  List.find (λ dk, isFriday (parseDateISO dk)) (sortedKeys weekEntries)
    = Some (Suggestion.fridayDateKey s)
  ∧ ¬ soleSpecial fridayEntries
  ∧ Suggestion.extraMinutes s =
      Zsum ((λ k, if bool_decide (k = Suggestion.fridayDateKey s) then 0
                  else dayExtra weekEntries k) <$> sortedKeys weekEntries)
  ∧ Suggestion.fridayTargetMinutes s = 0 `max` (360 - Suggestion.extraMinutes s)
  ∧ Suggestion.exitTime s
    = fridayExitTime fridayEntries (Suggestion.fridayTargetMinutes s).
Proof.
  rewrite suggestion_shape. intros [= Hs].
  destruct (List.find _ _) as [fk|]; [|done].
  destruct (bool_decide (fk = "")); [done|].
  destruct (match default [] (weekGet weekEntries fk) with
            | [e] => _ | _ => false end) eqn:Hsp; [done|].
  cbv zeta in Hs. injection Hs as <-. simpl.
  split; [done|]. split; [|done].
  intros Hss%special_decide. congruence.
Qed.

Lemma suggestion_of_theFriday (weekEntries : WeekEntries) (fridayDateKey : string) :
  theFriday weekEntries fridayDateKey → fridayDateKey ≠ "" →
  ¬ soleSpecial (default [] (weekGet weekEntries fridayDateKey)) →
  ∃ s, calculateFridayExitSuggestion weekEntries = Normal (Some s)
       ∧ Suggestion.fridayDateKey s = fridayDateKey.
Proof.
  intros Hfri Hne Hns. rewrite suggestion_shape, (find_theFriday _ _ Hfri).
  rewrite (bool_decide_eq_false_2 _ Hne). cbv zeta.
  pose proof (special_decide (default [] (weekGet weekEntries fridayDateKey))) as Hdec.
  destruct (default [] (weekGet weekEntries fridayDateKey)) as [|e [|e' l]];
    try by eexists.
  destruct (bool_decide (type e = "smart") || bool_decide (type e = "assente"));
    [|by eexists].
  destruct Hns. by apply Hdec.
Qed.

(** With a single Friday in the week, skipping the Friday key is the same
    as skipping every Friday. *)
Lemma extra_sum_theFriday (weekEntries : WeekEntries) (fridayDateKey : string) :
  theFriday weekEntries fridayDateKey →
  Zsum ((λ k, if bool_decide (k = fridayDateKey) then 0
              else dayExtra weekEntries k) <$> sortedKeys weekEntries)
  = Zsum (extraOf weekEntries <$> (map_to_list weekEntries).*1).
Proof.
  intros (Hin & Hfri & Huniq).
  rewrite <- (Zsum_Permutation _ _
    (fmap_Permutation (extraOf weekEntries) _ _ (sortedKeys_Permutation weekEntries))).
  f_equal. apply Forall_fmap_ext, Forall_forall. intros k Hk%elem_of_sortedKeys.
  unfold extraOf. case_bool_decide as Heq.
  - subst k. by rewrite Hfri.
  - destruct (isFriday (parseDateISO k)) eqn:Hk'; [|done].
    destruct Heq. by apply Huniq.
Qed.

(** C3 (amended): for a week whose Friday is not a sole smart / assente
    record, the suggestion exists, its adjusted target is
    [max 0 (360 - extraMinutes)], and its exit time is the time of the
    first clock-in plus the adjusted target when the Friday list has a
    clock-in, no clock-out at all and that time parses; otherwise it is
    null.  With Monday to Thursday summing to +45 (Wednesday, left open,
    not counted) and a Friday holding only a 07:50 clock-in, the adjusted
    target is 315 and the exit time 13:05. *)
Theorem fridaySuggestion_formulas :
  (∀ (weekEntries : WeekEntries) (fridayDateKey : string),
     theFriday weekEntries fridayDateKey → fridayDateKey ≠ "" →
     ¬ soleSpecial (default [] (weekGet weekEntries fridayDateKey)) →
     ∃ s, calculateFridayExitSuggestion weekEntries = Normal (Some s)
       ∧ Suggestion.fridayDateKey s = fridayDateKey
       ∧ Suggestion.fridayTargetMinutes s = 0 `max` (360 - Suggestion.extraMinutes s)
       ∧ Suggestion.exitTime s =
           match clockIns (default [] (weekGet weekEntries fridayDateKey)),
                 clockOuts (default [] (weekGet weekEntries fridayDateKey)) with
           | e :: _, [] =>
               entrataMin ← parseTimeToMinutes (time e);
               Some (minutesToTime (entrataMin + Suggestion.fridayTargetMinutes s))
           | _, _ => None
           end)
  ∧ calculateFridayExitSuggestion (U:=SpecUtils) weekOpenFriday
    = Normal (Some (Suggestion.mk (Some "13:05") 45 315 "2026-02-27" true false)).
Proof.
  split; [|by vm_compute].
  intros weekEntries fridayDateKey Hfri Hne Hns.
  destruct (suggestion_of_theFriday _ _ Hfri Hne Hns) as (s & Hs & Hkey).
  exists s. split; [done|]. split; [done|].
  apply suggestion_inv in Hs as (_ & _ & _ & Htarget & Hexit).
  split; [done|].
  rewrite Hexit, Hkey. apply fridayExitTime_shape.
Qed.

(** C4: [calculateFridayExitSuggestion] is null when no key of the week
    is a Friday, and null when the Friday's entries are a sole smart /
    assente record; otherwise the extra minutes it reports are the sum,
    over the keys of the week, of the deltas of the non-Friday days that
    have entries, the days whose delta is absent or flagged incomplete
    left out. *)
Theorem fridaySuggestion_null_and_extra (weekEntries : WeekEntries) :
  ((∀ k, is_Some (weekEntries !! k) → isFriday (parseDateISO k) = false) →
     calculateFridayExitSuggestion weekEntries = Normal None)
  ∧ (∀ fridayDateKey,
       theFriday weekEntries fridayDateKey →
       soleSpecial (default [] (weekGet weekEntries fridayDateKey)) →
       calculateFridayExitSuggestion weekEntries = Normal None)
  ∧ (∀ fridayDateKey,
       theFriday weekEntries fridayDateKey → fridayDateKey ≠ "" →
       ¬ soleSpecial (default [] (weekGet weekEntries fridayDateKey)) →
       ∃ s, calculateFridayExitSuggestion weekEntries = Normal (Some s)
         ∧ Suggestion.fridayDateKey s = fridayDateKey
         ∧ Suggestion.extraMinutes s
           = Zsum (extraOf weekEntries <$> (map_to_list weekEntries).*1)).
Proof.
  split; [|split].
  - intros Hno. by rewrite suggestion_shape, (find_no_friday _ Hno).
  - intros fk Hfri Hsp. rewrite suggestion_shape, (find_theFriday _ _ Hfri).
    apply special_decide in Hsp. cbv zeta. rewrite Hsp. by case_bool_decide.
  - intros fk Hfri Hne Hns.
    destruct (suggestion_of_theFriday _ _ Hfri Hne Hns) as (s & Hs & Hkey).
    exists s. split; [done|]. split; [done|].
    apply suggestion_inv in Hs as (_ & _ & Hextra & _).
    rewrite Hextra, Hkey. by apply extra_sum_theFriday.
Qed.

Lemma filter_none {A : Type} (P : A → Prop) `{∀ x, Decision (P x)} (l : list A) :
  Forall (λ x, ¬ P x) l → filter P l = [].
Proof.
  induction 1 as [|x l Hx _ IH]; [done|].
  by rewrite filter_cons, decide_False.
Qed.

Lemma filter_some {A : Type} (P : A → Prop) `{∀ x, Decision (P x)} (l : list A) :
  Exists P l → filter P l ≠ [].
Proof.
  induction 1 as [x l Hx|x l _ IH]; rewrite filter_cons.
  - by rewrite decide_True.
  - by destruct (decide (P x)).
Qed.

(** C10: the exit time of the suggestion, when there is one, is built
    from the first clock-in of the Friday list, whatever clock-ins
    follow it; and it is null as soon as the list holds a clock-out,
    also when a later clock-in is left unmatched. *)
Theorem fridayExit_first_clock_in (weekEntries : WeekEntries) (s : Suggestion.t) :
  calculateFridayExitSuggestion weekEntries = Normal (Some s) →
  let fridayEntries := default [] (weekGet weekEntries (Suggestion.fridayDateKey s)) in
  (∀ (pre : list Entry) (e : Entry) (post : list Entry),
     fridayEntries = (pre ++ e :: post)%list →
     type e = "entrata" → Forall (λ x, type x ≠ "entrata") pre →
     (∀ t, Suggestion.exitTime s = Some t →
        ∃ entrataMin, parseTimeToMinutes (time e) = Some entrataMin
          ∧ t = minutesToTime (entrataMin + Suggestion.fridayTargetMinutes s))
     ∧ (Forall (λ x, type x ≠ "uscita") fridayEntries →
        Suggestion.exitTime s =
          (entrataMin ← parseTimeToMinutes (time e);
           Some (minutesToTime (entrataMin + Suggestion.fridayTargetMinutes s)))))
  ∧ (Exists (λ x, type x = "uscita") fridayEntries → Suggestion.exitTime s = None).
Proof.
  intros Hs fridayEntries.
  apply suggestion_inv in Hs as (_ & _ & _ & _ & Hexit).
  fold fridayEntries in Hexit. rewrite Hexit, fridayExitTime_shape.
  split.
  - intros pre e post Hsplit Hty Hpre.
    assert (clockIns fridayEntries = e :: clockIns post) as ->.
    { unfold clockIns. rewrite Hsplit, filter_app, filter_cons, decide_True by done.
      by rewrite (filter_none _ _ Hpre). }
    split.
    + intros t. destruct (clockOuts fridayEntries); [|done].
      destruct (parseTimeToMinutes (time e)) as [m|]; [|done].
      intros [= <-]. by exists m.
    + intros Hno. unfold clockOuts. by rewrite (filter_none _ _ Hno).
  - intros Hout. apply (filter_some (λ x, type x = "uscita")) in Hout.
    fold (clockOuts fridayEntries) in Hout.
    destruct (clockOuts fridayEntries); [done|]. by destruct (clockIns fridayEntries).
Qed.

(** *** Week balance *)

(** C8: the balance is the worked minutes less 2160, and its three
    flags give the sign; 2160 minutes are neutral, 2100 minutes are
    negative by 60. *)
Theorem calculateBalance_spec (workedMinutes : Z) :
  Balance.minutes (calculateBalance workedMinutes) = workedMinutes - 2160
  ∧ (Balance.isPositive (calculateBalance workedMinutes) = true ↔ 0 < workedMinutes - 2160)
  ∧ (Balance.isNegative (calculateBalance workedMinutes) = true ↔ workedMinutes - 2160 < 0)
  ∧ (Balance.isNeutral (calculateBalance workedMinutes) = true ↔ workedMinutes - 2160 = 0)
  ∧ Balance.isNeutral (calculateBalance 2160) = true
  ∧ Balance.isNegative (calculateBalance 2100) = true
  ∧ Balance.minutes (calculateBalance 2100) = -60.
Proof.
  unfold calculateBalance, CONFIG.WEEKLY_TARGET_MINUTES. simpl.
  rewrite !Z.ltb_lt, Z.eqb_eq. repeat split; lia.
Qed.

(** *** Totality *)

(** C7: no accounting operation throws: day computation, daily delta,
    week total and Friday suggestion return a value for every input, an
    absent entry list included, and pair resolution for every list of
    entries; balance and remaining hold no operation that can throw.
    A pair with an unparseable time leaves the worked minutes as they
    were, a boundary with an unparseable time leaves the break minutes
    as they were, and the loop goes on. *)
Theorem engine_total (entries : option (list Entry)) (clockEntries : list Entry)
    (dateKey : string) (weekEntries : WeekEntries) (workedMinutes : Z) :
  returns (calculateDayHours entries dateKey)
  ∧ returns (calculatePairMinutes (Some clockEntries))
  ∧ returns (calculateDayDelta entries dateKey)
  ∧ returns (calculateWeekTotal weekEntries)
  ∧ (∃ balance, calculateBalance workedMinutes = balance)
  ∧ (∃ remaining, calculateRemaining workedMinutes = remaining)
  ∧ returns (calculateFridayExitSuggestion weekEntries)
  ∧ (∀ ins outs pairs w b i,
       parseTimeToMinutes (jsIndex ins i) = None
       ∨ parseTimeToMinutes (jsIndex outs i) = None →
       (pairStep ins outs pairs (w, b) i).1 = w)
  ∧ (∀ ins outs pairs w b i,
       parseTimeToMinutes (jsIndex outs i) = None
       ∨ parseTimeToMinutes (jsIndex ins (i + 1)) = None →
       (pairStep ins outs pairs (w, b) i).2 = b).
Proof.
  split; [apply calculateDayHours_returns|].
  split; [apply calculatePairMinutes_returns|].
  split; [apply calculateDayDelta_returns|].
  split; [apply calculateWeekTotal_returns|].
  split; [by eexists|]. split; [by eexists|].
  split; [rewrite suggestion_shape; apply returns_Normal|].
  split; intros ins outs pairs w b i Hbad; rewrite pairStep_spans; cbn [fst snd].
  - destruct Hbad as [Hbad|Hbad];
      [rewrite (spanMinutes_unparseable_l _ _ Hbad)
      |rewrite (spanMinutes_unparseable_r _ _ Hbad)]; lia.
  - destruct Hbad as [Hbad|Hbad];
      [rewrite (spanMinutes_unparseable_l _ _ Hbad)
      |rewrite (spanMinutes_unparseable_r _ _ Hbad)]; case_match; lia.
Qed.

(** A check, by evaluation over the sorted keys, that a key is the
    Friday of a given week. *)
Lemma theFriday_check (weekEntries : WeekEntries) (fridayDateKey : string) :
  is_Some (weekEntries !! fridayDateKey) →
  isFriday (parseDateISO fridayDateKey) = true →
  forallb (λ k, implb (isFriday (parseDateISO k)) (bool_decide (k = fridayDateKey)))
    (sortedKeys weekEntries) = true →
  theFriday weekEntries fridayDateKey.
Proof.
  intros Hin Hfri Hall. split; [done|]. split; [done|].
  intros k Hk Hkfri. rewrite forallb_forall in Hall.
  apply elem_of_sortedKeys, list_elem_of_In, Hall in Hk.
  rewrite Hkfri in Hk. by apply bool_decide_eq_true in Hk.
Qed.

End Properties.

(** ** The time helpers *)

Lemma digitValue_inv (c : ascii) (a : Z) :
  Validators.digitValue c = Some a →
  0 ≤ a ≤ 9 ∧ c = ascii_of_N (Z.to_N (48 + a)).
Proof.
  unfold Validators.digitValue.
  destruct (_ && _) eqn:Hrange; [|done]. intros [= <-].
  apply andb_true_iff in Hrange as [H48%Z.leb_le H57%Z.leb_le].
  split; [lia|].
  replace (48 + (Z.of_N (N_of_ascii c) - 48)) with (Z.of_N (N_of_ascii c)) by lia.
  by rewrite N2Z.id, ascii_N_embedding.
Qed.

Lemma pad2_digits (a b : Z) :
  0 ≤ a ≤ 9 → 0 ≤ b ≤ 9 →
  Validators.pad2 (10 * a + b)
  = String (ascii_of_N (Z.to_N (48 + a)))
      (String (ascii_of_N (Z.to_N (48 + b))) EmptyString).
Proof.
  intros Ha Hb.
  assert (a = 0 ∨ a = 1 ∨ a = 2 ∨ a = 3 ∨ a = 4 ∨ a = 5 ∨ a = 6 ∨ a = 7
          ∨ a = 8 ∨ a = 9) as Ha' by lia.
  assert (b = 0 ∨ b = 1 ∨ b = 2 ∨ b = 3 ∨ b = 4 ∨ b = 5 ∨ b = 6 ∨ b = 7
          ∨ b = 8 ∨ b = 9) as Hb' by lia.
  destruct_or!; subst; reflexivity.
Qed.

(** Every minute of the day, checked by evaluation. *)
Lemma roundtrip_table :
  forallb
    (λ n, match Validators.parseTimeToMinutes
                  (Some (Validators.minutesToTime (Z.of_nat n))) with
          | Some v => v =? Z.of_nat n
          | None => false
          end)
    (seq 0 1440) = true.
Proof. by vm_compute. Qed.

Lemma parse_format (m : Z) :
  0 ≤ m < 1440 →
  Validators.parseTimeToMinutes (Some (Validators.minutesToTime m)) = Some m.
Proof.
  intros Hm. pose proof roundtrip_table as Htable.
  rewrite forallb_forall in Htable.
  specialize (Htable (Z.to_nat m)). rewrite Z2Nat.id in Htable by lia.
  destruct (Validators.parseTimeToMinutes _) as [v|].
  - f_equal. apply Z.eqb_eq, Htable, in_seq. lia.
  - discriminate Htable. apply in_seq. lia.
Qed.

Lemma parse_wellFormed (s : string) (v : Z) :
  Validators.parseTimeToMinutes (Some s) = Some v → Validators.wellFormedTime s.
Proof.
  unfold Validators.parseTimeToMinutes.
  destruct s as [|h1 [|h2 [|sep [|m1 [|m2 [|]]]]]]; try done.
  case_bool_decide as Hsep; [|done]. subst sep.
  destruct (Validators.digitValue h1) as [a|] eqn:Ha; [|done].
  destruct (Validators.digitValue h2) as [b|] eqn:Hb; [|done].
  destruct (Validators.digitValue m1) as [c|] eqn:Hc; [|done].
  destruct (Validators.digitValue m2) as [d|] eqn:Hd; [|done].
  simpl. destruct (_ && _) eqn:Hrange; [|done]. intros _.
  apply andb_true_iff in Hrange as [Hh%Z.ltb_lt Hm%Z.ltb_lt].
  apply digitValue_inv in Ha as [? ->]. apply digitValue_inv in Hb as [? ->].
  apply digitValue_inv in Hc as [? ->]. apply digitValue_inv in Hd as [? ->].
  exists (10 * a + b), (10 * c + d).
  split; [lia|]. split; [lia|]. by rewrite !pad2_digits.
Qed.

Lemma wellFormed_format (s : string) :
  Validators.wellFormedTime s →
  ∃ m, 0 ≤ m < 1440 ∧ s = Validators.minutesToTime m.
Proof.
  intros (hh & mm & Hh & Hm & ->). exists (hh * 60 + mm). split; [lia|].
  unfold Validators.minutesToTime.
  rewrite (proj2 (Z.ltb_ge _ _)) by lia.
  rewrite Z.abs_eq by lia.
  replace ((hh * 60 + mm) `div` 60) with hh by (apply (Z.div_unique_pos _ _ hh mm); lia).
  replace ((hh * 60 + mm) `mod` 60) with mm by (apply (Z.mod_unique_pos _ _ hh mm); lia).
  reflexivity.
Qed.

(** C9: [parseTimeToMinutes (minutesToTime m)] is [m] for every minute
    [m] of the day, and [parseTimeToMinutes] answers null, without
    throwing, on every string that is not a well-formed [HH:MM] time (and
    on [undefined]); the well-formed times are exactly the strings it
    parses. *)
Theorem parseTime_formatMinutes_roundtrip :
  (∀ m, 0 ≤ m < 1440 →
     Validators.parseTimeToMinutes (Some (Validators.minutesToTime m)) = Some m)
  ∧ (∀ s, ¬ Validators.wellFormedTime s →
       Validators.parseTimeToMinutes (Some s) = None)
  ∧ Validators.parseTimeToMinutes None = None
  ∧ (∀ s, Validators.wellFormedTime s →
       ∃ m, 0 ≤ m < 1440 ∧ Validators.parseTimeToMinutes (Some s) = Some m).
Proof.
  split; [apply parse_format|]. split; [|split; [done|]].
  - intros s Hbad.
    destruct (Validators.parseTimeToMinutes (Some s)) as [v|] eqn:Hparse; [|done].
    destruct Hbad. by apply parse_wellFormed in Hparse.
  - intros s (m & Hm & ->)%wellFormed_format. exists m. split; [done|].
    by apply parse_format.
Qed.

(** ** The engine on the scenarios *)

Section Scenarios.
#[local] Existing Instance SpecUtils.

(** A single pair of exactly six hours on a Tuesday carries no pause; one
    minute more and the pause is deducted. *)
Example threshold_is_strict :
  calculateDayHours (Some [entrata "08:00"; uscita "14:00"]) "2026-02-24"
    = Normal (Day.mk 360 "06:00" false (Some 360) (Some false) (Some 0))
  ∧ calculateDayHours (Some [entrata "08:00"; uscita "14:01"]) "2026-02-24"
    = Normal (Day.mk 331 "05:31" false (Some 361) (Some true) (Some 30)).
Proof. by vm_compute. Qed.

Example tuesday_one_pair :
  calculateDayHours (Some tuesdayOnePair) "2026-02-24"
    = Normal (Day.mk 510 "08:30" false (Some 540) (Some true) (Some 30))
  ∧ calculateDayDelta (Some tuesdayOnePair) "2026-02-24"
    = Normal (Some (Delta.mk 60 "+1h" true false false false)).
Proof. by vm_compute. Qed.

Example wednesday_two_pairs :
  calculateDayHours (Some wednesdayTwoPairs) "2026-02-25"
    = Normal (Day.mk 460 "07:40" false (Some 470) (Some true) (Some 20))
  ∧ calculateDayDelta (Some wednesdayTwoPairs) "2026-02-25"
    = Normal (Some (Delta.mk 10 "+10min" true false false false)).
Proof. by vm_compute. Qed.

Example friday_one_pair :
  calculateDayHours (Some fridayOnePair) "2026-02-27"
    = Normal (Day.mk 360 "06:00" false (Some 360) (Some false) (Some 0))
  ∧ calculateDayDelta (Some fridayOnePair) "2026-02-27"
    = Normal (Some (Delta.mk 0 "+0min" false false true false)).
Proof. by vm_compute. Qed.

(** Pair resolution itself throws on an absent list; its callers guard. *)
Example calculatePairMinutes_absent : calculatePairMinutes None = Throw TypeError.
Proof. reflexivity. Qed.

Lemma theFriday_weekReentry : theFriday weekReentry "2026-02-27".
Proof. apply theFriday_check; [by eexists | reflexivity | by vm_compute]. Qed.

Lemma calculateDayHours_break_policy_witness :
  ∃ p day,
    calculatePairMinutes (Some tuesdayOnePair) = Normal p
    ∧ calculateDayHours (Some tuesdayOnePair) "2026-02-24" = Normal day
    ∧ Day.minutes day
      = 0 `max` (Pair.workedMinutes p - pauseMinutesFor p "2026-02-24").
Proof.
  destruct (calculateDayHours_break_policy tuesdayOnePair "2026-02-24")
    as (p & day & Hp & Hday & Hmin & _).
  - discriminate.
  - intros (e & Heq & _). discriminate Heq.
  - exists p, day. split; [exact Hp|]. split; [exact Hday | exact Hmin].
Defined.

Lemma calculateDayHours_special_day_witness :
  ∃ day, calculateDayHours (Some [smart 7.5]) "2026-02-24" = Normal day
       ∧ Day.minutes day = 450.
Proof.
  destruct (calculateDayHours_special_day (smart 7.5) 7.5 "2026-02-24")
    as [(day & Hday & Hmin & _) _].
  - left. reflexivity.
  - reflexivity.
  - exists day. split; [exact Hday | exact Hmin].
Defined.

(** The Friday of [weekReentry] has an open clock-in, the third entry,
    and yet no exit time is suggested: the list holds a clock-out. *)
Lemma friday_reentry_no_exit :
  weekGet weekReentry "2026-02-27" = Some fridayReentry
  ∧ theFriday weekReentry "2026-02-27"
  ∧ ¬ soleSpecial fridayReentry
  ∧ openClockIn fridayReentry
  ∧ ∃ s, calculateFridayExitSuggestion weekReentry = Normal (Some s)
       ∧ Suggestion.exitTime s = None.
Proof.
  split; [reflexivity|]. split; [apply theFriday_weekReentry|].
  split; [by intros (e & [=] & _)|].
  split; [eexists; split; [by vm_compute | reflexivity]|].
  eexists. split; [by vm_compute | reflexivity].
Qed.

Lemma fridaySuggestion_formulas_witness :
  ∃ s, calculateFridayExitSuggestion weekOpenFriday = Normal (Some s)
     ∧ Suggestion.fridayDateKey s = "2026-02-27"
     ∧ Suggestion.fridayTargetMinutes s = 0 `max` (360 - Suggestion.extraMinutes s).
Proof.
  destruct (proj1 fridaySuggestion_formulas weekOpenFriday "2026-02-27")
    as (s & Hs & Hkey & Htarget & _).
  - apply theFriday_check; [by eexists | reflexivity | by vm_compute].
  - discriminate.
  - intros (e & Heq & Hty). vm_compute in Heq. injection Heq as <-.
    destruct Hty as [Hty|Hty]; discriminate Hty.
  - exists s. split; [exact Hs|]. split; [exact Hkey | exact Htarget].
Defined.

Lemma fridaySuggestion_null_and_extra_witness :
  ∃ s, calculateFridayExitSuggestion weekOpenFriday = Normal (Some s)
     ∧ Suggestion.extraMinutes s
       = Zsum (extraOf weekOpenFriday <$> (map_to_list weekOpenFriday).*1).
Proof.
  destruct (fridaySuggestion_null_and_extra weekOpenFriday) as (_ & _ & Hextra).
  destruct (Hextra "2026-02-27") as (s & Hs & _ & Hsum).
  - apply theFriday_check; [by eexists | reflexivity | by vm_compute].
  - discriminate.
  - intros (e & Heq & Hty). vm_compute in Heq. injection Heq as <-.
    destruct Hty as [Hty|Hty]; discriminate Hty.
  - exists s. split; [exact Hs | exact Hsum].
Defined.

Lemma fridayExit_first_clock_in_witness :
  ∃ entrataMin, parseTimeToMinutes (Some "07:50") = Some entrataMin
              ∧ "13:05" = minutesToTime (entrataMin + 315).
Proof.
  pose proof (fridayExit_first_clock_in weekOpenFriday
    (Suggestion.mk (Some "13:05") 45 315 "2026-02-27" true false)) as Hfirst.
  destruct Hfirst as [Hfirst _]; [by vm_compute|].
  destruct (Hfirst [] (entrata "07:50") []) as [Hsome _].
  - reflexivity.
  - reflexivity.
  - constructor.
  - exact (Hsome "13:05" eq_refl).
Defined.

End Scenarios.

(** ** Further properties of the engine *)

Lemma Zsum_nonneg (l : list Z) : Forall (λ x, 0 ≤ x) l → 0 ≤ Zsum l.
Proof.
  induction 1 as [|x l Hx _ IH]; [done|]. rewrite Zsum_cons. lia.
Qed.

Section MoreProperties.
Context {U : Utils}.

Lemma spanMinutes_nonneg (from to : option string) : 0 ≤ spanMinutes from to.
Proof. unfold spanMinutes. repeat case_match; lia. Qed.

Lemma workedSum_nonneg (ins outs : list (option string)) (n : nat) :
  0 ≤ workedSum ins outs n.
Proof.
  apply Zsum_nonneg, Forall_fmap, Forall_forall. intros i _. apply spanMinutes_nonneg.
Qed.

Lemma breakSum_nonneg (ins outs : list (option string)) (n : nat) :
  0 ≤ breakSum ins outs n.
Proof.
  apply Zsum_nonneg, Forall_fmap, Forall_forall. intros i _. apply spanMinutes_nonneg.
Qed.

(** The result of pair resolution, with both loops summed. *)
Lemma calculatePairMinutes_sums (entries : list Entry) :
  calculatePairMinutes (Some entries) = Normal
    (let ins := timesOf "entrata" entries in
     let outs := timesOf "uscita" entries in
     let pairs := (length ins `min` length outs)%nat in
     Pair.mk (workedSum ins outs pairs) (length outs <? length ins)%nat pairs
       (breakSum ins outs pairs)).
Proof.
  unfold calculatePairMinutes.
  by rewrite pairLoop_spans, guarded_boundaries.
Qed.

(** X1: on the pair path the net minutes of a day lie between zero and
    the gross minutes, the deduction is at most 30 minutes, and on a
    Friday nothing is deducted. *)
Theorem calculateDayHours_net_bounds (entries : list Entry) (dateKey : string) :
  entries ≠ [] → ¬ soleSpecial entries →
  ∃ day gross,
    calculateDayHours (Some entries) dateKey = Normal day
    ∧ Day.grossMinutes day = Some gross
    ∧ 0 ≤ Day.minutes day ≤ gross
    ∧ gross - Day.minutes day ≤ 30
    ∧ (isFriday (parseDateISO dateKey) = true → Day.minutes day = gross).
Proof.
  intros Hne Hns. unfold calculateDayHours.
  assert (noEntries (Some entries) = false) as ->
    by (destruct entries; [done | reflexivity]).
  rewrite (specialDay_pair_path _ Hns), bind_Normal.
  rewrite calculatePairMinutes_sums, bind_Normal. cbv zeta.
  eexists _, _. split; [reflexivity|]. split; [reflexivity|]. cbn [Day.minutes].
  set (ins := timesOf "entrata" entries). set (outs := timesOf "uscita" entries).
  set (n := (length ins `min` length outs)%nat).
  pose proof (workedSum_nonneg ins outs n) as Hw.
  pose proof (breakSum_nonneg ins outs n) as Hb.
  unfold pauseMinutesFor, CONFIG.PAUSE_MINUTES. cbn [Pair.workedMinutes Pair.pairCount Pair.breakMinutes].
  destruct (isFriday (parseDateISO dateKey)) eqn:Hfri; cbn [negb].
  - split; [lia|]. split; [lia|]. intros _. lia.
  - split; [|split; [|done]]; repeat case_match; lia.
Qed.

(** *** Week total *)

Lemma weekLoop_inv (l : list (string * option (list Entry))) (t : Z)
    (m : gmap string Day.t) :
  NoDup l.*1 → (∀ k, k ∈ l.*1 → m !! k = None) →
  t = Zsum (Day.minutes <$> (map_to_list m).*2) →
  ∃ t' m',
    forOf weekTotalStep (t, m) l = Normal (t', m')
    ∧ t' = Zsum (Day.minutes <$> (map_to_list m').*2)
    ∧ (∀ k es, (k, es) ∈ l →
         ∃ d, calculateDayHours es k = Normal d ∧ m' !! k = Some d)
    ∧ (∀ k, k ∉ l.*1 → m' !! k = m !! k).
Proof.
  revert t m. induction l as [|[k0 es0] l IH]; intros t m Hnd Hfresh Ht.
  - exists t, m. split; [done|]. split; [done|]. split; [|done].
    intros k es Hin. by apply elem_of_nil in Hin.
  - rewrite fmap_cons in Hnd. apply NoDup_cons in Hnd as [Hk0 Hnd].
    cbn [forOf].
    destruct (calculateDayHours_returns es0 k0) as [d0 Hd0].
    assert (weekTotalStep (t, m) (k0, es0)
            = Normal (t + Day.minutes d0, <[k0:=d0]> m)) as ->
      by (unfold weekTotalStep; by rewrite Hd0).
    rewrite bind_Normal.
    assert (m !! k0 = None) as Hm0 by (apply Hfresh; rewrite fmap_cons; left).
    destruct (IH (t + Day.minutes d0) (<[k0:=d0]> m)) as (t' & m' & Hrun & Hsum & Hin & Hout).
    + done.
    + intros k Hk. rewrite lookup_insert_ne; [|by intros ->].
      apply Hfresh. rewrite fmap_cons. by right.
    + rewrite (Zsum_Permutation _ _
        (fmap_Permutation Day.minutes _ _
          (fmap_Permutation snd _ _ (map_to_list_insert m k0 d0 Hm0)))).
      rewrite !fmap_cons, Zsum_cons. cbn [snd]. lia.
    + exists t', m'. split; [done|]. split; [done|]. split.
      * intros k es [[= -> ->]|Hkes]%elem_of_cons.
        -- exists d0. split; [done|]. rewrite Hout by done. apply lookup_insert_eq.
        -- by apply Hin.
      * intros k Hk. rewrite fmap_cons in Hk. apply not_elem_of_cons in Hk as [Hne Hk].
        rewrite Hout by done. by apply lookup_insert_ne.
Qed.

(** X2: the week total returns, for every week, a [byDay] that holds
    under each key of the week the day computed for its entries and
    nothing under any other key, and a total that is the sum of the
    minutes of the days in [byDay]. *)
Theorem calculateWeekTotal_sum (weekEntries : WeekEntries) :
  ∃ r,
    calculateWeekTotal weekEntries = Normal r
    ∧ (∀ k es, weekEntries !! k = Some es →
         ∃ d, calculateDayHours es k = Normal d ∧ WeekTotal.byDay r !! k = Some d)
    ∧ (∀ k, weekEntries !! k = None → WeekTotal.byDay r !! k = None)
    ∧ WeekTotal.minutes r = Zsum (Day.minutes <$> (map_to_list (WeekTotal.byDay r)).*2)
    ∧ WeekTotal.formatted r = minutesToTime (WeekTotal.minutes r).
Proof.
  destruct (weekLoop_inv (map_to_list weekEntries) 0 ∅)
    as (t & m & Hrun & Hsum & Hin & Hout).
  - apply NoDup_fst_map_to_list.
  - intros k _. apply lookup_empty.
  - by rewrite map_to_list_empty.
  - unfold calculateWeekTotal. rewrite Hrun, bind_Normal.
    eexists. split; [reflexivity|]. cbn.
    split; [|split; [|done]].
    + intros k es Hk. apply Hin. by apply elem_of_map_to_list.
    + intros k Hk. rewrite Hout; [apply lookup_empty|].
      intros ((k' & es) & -> & Hkes)%list_elem_of_fmap.
      apply elem_of_map_to_list in Hkes. simpl in Hk. congruence.
Qed.

(** *** Balance and remaining *)

(** X3: the remaining minutes are never negative; they are what the
    balance is short of zero, so they vanish exactly when the balance is
    not negative, and below the target worked plus remaining make up
    the 2160 minutes of the week. *)
Theorem calculateRemaining_balance (workedMinutes : Z) :
  0 ≤ Remaining.minutes (calculateRemaining workedMinutes)
  ∧ Remaining.minutes (calculateRemaining workedMinutes)
    = 0 `max` (- Balance.minutes (calculateBalance workedMinutes))
  ∧ (Remaining.minutes (calculateRemaining workedMinutes) = 0
     ↔ Balance.isNegative (calculateBalance workedMinutes) = false)
  ∧ (Balance.isNegative (calculateBalance workedMinutes) = true →
     workedMinutes + Remaining.minutes (calculateRemaining workedMinutes) = 2160).
Proof.
  unfold calculateRemaining, calculateBalance, CONFIG.WEEKLY_TARGET_MINUTES.
  cbn [Remaining.minutes Balance.minutes Balance.isNegative].
  destruct (workedMinutes - 36 * 60 <? 0) eqn:Hneg;
    [apply Z.ltb_lt in Hneg | apply Z.ltb_ge in Hneg];
    repeat split; try done; try lia.
Qed.

(** *** Pair resolution on a chronological day *)

Lemma workedSum_S (ins outs : list (option string)) (n : nat) :
  workedSum ins outs (S n)
  = workedSum ins outs n + spanMinutes (jsIndex ins n) (jsIndex outs n).
Proof.
  unfold workedSum. rewrite seq_S, fmap_app, Zsum_app. cbn. lia.
Qed.

Lemma breakSum_S (ins outs : list (option string)) (n : nat) :
  breakSum ins outs (S (S n))
  = breakSum ins outs (S n) + spanMinutes (jsIndex outs n) (jsIndex ins (n + 1)).
Proof.
  unfold breakSum. replace (S (S n) - 1)%nat with (S n) by lia.
  replace (S n - 1)%nat with n by lia.
  rewrite seq_S, fmap_app, Zsum_app. cbn. lia.
Qed.

Lemma chronological_sums (ins outs : list (option string)) (n m : nat) :
  (∀ i, (i < n)%nat →
     ∃ a b, parseTimeToMinutes (jsIndex ins i) = Some a
          ∧ parseTimeToMinutes (jsIndex outs i) = Some b ∧ a ≤ b) →
  (∀ i, (i + 1 < n)%nat →
     ∃ b a, parseTimeToMinutes (jsIndex outs i) = Some b
          ∧ parseTimeToMinutes (jsIndex ins (i + 1)) = Some a ∧ b ≤ a) →
  (S m ≤ n)%nat →
  ∃ first last,
    parseTimeToMinutes (jsIndex ins 0) = Some first
    ∧ parseTimeToMinutes (jsIndex outs m) = Some last
    ∧ workedSum ins outs (S m) + breakSum ins outs (S m) = last - first.
Proof.
  intros Hpairs Hgaps. induction m as [|m IH]; intros Hm.
  - destruct (Hpairs 0%nat) as (a & b & Ha & Hb & Hab); [lia|].
    exists a, b. split; [done|]. split; [done|].
    rewrite workedSum_S. unfold workedSum, breakSum, spanMinutes. cbn.
    rewrite Ha, Hb. lia.
  - destruct IH as (first & last & Hfirst & Hlast & Hsum); [lia|].
    destruct (Hpairs (S m)) as (a & b & Ha & Hb & Hab); [lia|].
    destruct (Hgaps m) as (b' & a' & Hb' & Ha' & Hba); [lia|].
    replace (m + 1)%nat with (S m) in Ha' by lia.
    exists first, b. split; [done|]. split; [done|].
    rewrite workedSum_S, breakSum_S.
    replace (m + 1)%nat with (S m) by lia.
    unfold spanMinutes at 1 2. simplify_eq. rewrite Ha, Hb, Hlast. lia.
Qed.

(** X4: on a chronological day, where every pair and every gap between
    pairs parses and runs forwards, the worked minutes and the break
    minutes add up to the time from the first clock-in to the last
    paired clock-out. *)
Theorem calculatePairMinutes_presence (entries : list Entry) :
  let ins := time <$> filter (λ e, type e = "entrata") entries in
  let outs := time <$> filter (λ e, type e = "uscita") entries in
  let n := (length ins `min` length outs)%nat in
  (0 < n)%nat →
  (∀ i, (i < n)%nat →
     ∃ a b, parseTimeToMinutes (jsIndex ins i) = Some a
          ∧ parseTimeToMinutes (jsIndex outs i) = Some b ∧ a ≤ b) →
  (∀ i, (i + 1 < n)%nat →
     ∃ b a, parseTimeToMinutes (jsIndex outs i) = Some b
          ∧ parseTimeToMinutes (jsIndex ins (i + 1)) = Some a ∧ b ≤ a) →
  ∃ p first last,
    calculatePairMinutes (Some entries) = Normal p
    ∧ parseTimeToMinutes (jsIndex ins 0) = Some first
    ∧ parseTimeToMinutes (jsIndex outs (n - 1)) = Some last
    ∧ Pair.workedMinutes p + Pair.breakMinutes p = last - first.
Proof.
  intros ins outs n Hpos Hpairs Hgaps.
  destruct (chronological_sums ins outs n (n - 1) Hpairs Hgaps)
    as (first & last & Hfirst & Hlast & Hsum); [lia|].
  rewrite calculatePairMinutes_sums. cbv zeta.
  eexists _, first, last. split; [reflexivity|]. split; [done|]. split; [done|].
  cbn [Pair.workedMinutes Pair.breakMinutes]. unfold timesOf. fold ins outs n.
  by replace (S (n - 1)) with n in Hsum by lia.
Qed.

(** *** A further clock-in *)

Lemma timesOf_app (kind : string) (l1 l2 : list Entry) :
  timesOf kind (l1 ++ l2)%list = (timesOf kind l1 ++ timesOf kind l2)%list.
Proof. unfold timesOf. by rewrite filter_app, fmap_app. Qed.

Lemma jsIndex_app_l {A : Type} (l1 l2 : list (option A)) (i : nat) :
  (i < length l1)%nat → jsIndex (l1 ++ l2)%list i = jsIndex l1 i.
Proof. intros Hi. unfold jsIndex. by rewrite lookup_app_l. Qed.

Lemma sums_app_l (ins extra outs : list (option string)) (n : nat) :
  (n ≤ length ins)%nat →
  workedSum (ins ++ extra)%list outs n = workedSum ins outs n
  ∧ breakSum (ins ++ extra)%list outs n = breakSum ins outs n.
Proof.
  intros Hn. unfold workedSum, breakSum. split; f_equal.
  - apply list_fmap_ext. intros j i [-> Hi]%lookup_seq.
    rewrite jsIndex_app_l; [done | lia].
  - apply list_fmap_ext. intros j i [-> Hi]%lookup_seq.
    rewrite jsIndex_app_l; [done | lia].
Qed.

(** X5: clocking in once more on a day whose clock-ins are not
    outnumbered by its clock-outs changes nothing in the day's figures,
    minutes, gross, pause and break, and marks the day incomplete. *)
Theorem calculateDayHours_further_clock_in (entries : list Entry) (e : Entry)
    (dateKey : string) :
  entries ≠ [] → ¬ soleSpecial entries → type e = "entrata" →
  (length (timesOf "uscita" entries) ≤ length (timesOf "entrata" entries))%nat →
  ∃ day,
    calculateDayHours (Some entries) dateKey = Normal day
    ∧ calculateDayHours (Some (entries ++ [e])%list) dateKey
      = Normal (Day.mk (Day.minutes day) (Day.formatted day) true
                  (Day.grossMinutes day) (Day.pauseApplied day) (Day.breakMinutes day)).
Proof.
  intros Hne Hns Hty Hle.
  assert (¬ soleSpecial (entries ++ [e])%list) as Hns'.
  { intros (e' & Heq & _). destruct entries as [|e0 [|e1 entries]]; done. }
  unfold calculateDayHours.
  assert (noEntries (Some entries) = false) as ->
    by (destruct entries; [done | reflexivity]).
  assert (noEntries (Some (entries ++ [e])%list) = false) as ->
    by (destruct entries; reflexivity).
  rewrite (specialDay_pair_path _ Hns), (specialDay_pair_path _ Hns'), !bind_Normal.
  rewrite !calculatePairMinutes_sums, !bind_Normal. cbv zeta.
  rewrite !timesOf_app.
  assert (timesOf "entrata" [e] = [time e]) as ->.
  { unfold timesOf. rewrite filter_cons, decide_True by done. done. }
  assert (timesOf "uscita" [e] = []) as ->.
  { unfold timesOf. rewrite filter_cons, decide_False; [done|]. rewrite Hty. done. }
  rewrite app_nil_r, length_app. cbn [length].
  set (ins := timesOf "entrata" entries) in *.
  set (outs := timesOf "uscita" entries) in *.
  replace ((length ins + 1) `min` length outs)%nat
    with (length ins `min` length outs)%nat by lia.
  destruct (sums_app_l ins [time e] outs (length ins `min` length outs)) as [-> ->];
    [lia|].
  rewrite (proj2 (Nat.ltb_lt (length outs) (length ins + 1))) by lia.
  eexists. split; [reflexivity|]. reflexivity.
Qed.

(** *** Hours and minutes *)

Lemma Math_round_inject_Z_div (n : Z) (d : positive) :
  Math_round (inject_Z n / inject_Z (Z.pos d))
  = (2 * n + Z.pos d) `div` (2 * Z.pos d).
Proof.
  unfold Math_round, Qfloor, Qdiv, Qplus, Qmult, Qinv, inject_Z. cbn.
  f_equal; lia.
Qed.

(** X6: converting minutes to decimal hours, rounded to hundredths, and
    back to minutes gives the minutes again. *)
Theorem hoursToMinutes_minutesToHours (minutes : Z) :
  hoursToMinutes (minutesToHours minutes) = minutes.
Proof.
  unfold hoursToMinutes, minutesToHours.
  assert (Math_round (inject_Z minutes / 60 * 100)
          = (10 * minutes + 3) `div` 6) as ->.
  { rewrite (Math_round_proper _ (inject_Z (100 * minutes) / inject_Z 60)).
    - rewrite Math_round_inject_Z_div. symmetry.
      apply Z.div_unique_pos with (r := 20 * ((10 * minutes + 3) `mod` 6)).
      + pose proof (Z.mod_pos_bound (10 * minutes + 3) 6). lia.
      + pose proof (Z.div_mod (10 * minutes + 3) 6). lia.
    - unfold Qeq, Qdiv, Qmult, Qinv, inject_Z. cbn. lia. }
  set (r := (10 * minutes + 3) `div` 6).
  rewrite (Math_round_proper _ (inject_Z (60 * r) / inject_Z 100)).
  - rewrite Math_round_inject_Z_div. symmetry.
    pose proof (Z.mod_pos_bound (10 * minutes + 3) 6).
    pose proof (Z.div_mod (10 * minutes + 3) 6). fold r in H0.
    apply Z.div_unique_pos with (r := 2 * (60 * r) + 100 - 200 * minutes); lia.
  - unfold Qeq, Qdiv, Qmult, Qinv, inject_Z. cbn. lia.
Qed.

Lemma hoursToMinutes_mono (h h' : Q) :
  (h <= h')%Q → hoursToMinutes h ≤ hoursToMinutes h'.
Proof.
  intros Hle. unfold hoursToMinutes, Math_round. apply Qfloor_resp_le.
  apply Qplus_le_l, Qmult_le_compat_r; [done|]. discriminate.
Qed.

Lemma Qgtb_lt (a b : Q) : Qgtb a b = true ↔ (b < a)%Q.
Proof.
  unfold Qgtb. rewrite negb_true_iff. split.
  - intros Hle. apply Qnot_le_lt. intros Hab%Qle_bool_iff. congruence.
  - intros Hlt. destruct (Qle_bool a b) eqn:Hle; [|done].
    apply Qle_bool_iff in Hle. by apply Qlt_not_le in Hlt.
Qed.

(** *** Smart working *)

(** X7: a day recorded as smart working with the hours that
    [getSmartHours] gives for its date is exactly on target: its delta
    is zero, neutral and complete, on a Friday as on any other day. *)
Theorem smart_day_on_target (dateKey : string) :
  ∃ delta,
    calculateDayDelta (Some [mkEntry "smart" None (Some (getSmartHours dateKey))]) dateKey
      = Normal (Some delta)
    ∧ Delta.minutes delta = 0
    ∧ Delta.isNeutral delta = true
    ∧ Delta.hasIncomplete delta = false.
Proof.
  set (e := mkEntry "smart" None (Some (getSmartHours dateKey))).
  assert (calculateDayHours (Some [e]) dateKey = Normal
            (Day.mk (hoursToMinutes (getDailyTarget dateKey))
               (minutesToTime (hoursToMinutes (getDailyTarget dateKey)))
               false None None None)) as Hday.
  { unfold calculateDayHours. cbn [noEntries length Nat.eqb].
    rewrite specialDay_shape. cbn [type e]. rewrite bind_Normal.
    assert (Math_round (hoursOrZero e * 60) = hoursToMinutes (getDailyTarget dateKey)) as ->;
      [|done].
    unfold e, hoursOrZero, getSmartHours, getDailyTarget. cbn [hours].
    by destruct (isFriday (parseDateISO dateKey)). }
  rewrite (calculateDayDelta_shape _ _ _ Hday). cbv zeta. cbn [type e].
  eexists. split; [reflexivity|]. cbn.
  rewrite Z.sub_diag. done.
Qed.

(** *** Estimated exit *)

(** X8: [estimateExitTime] answers the placeholder when the clock-in
    does not parse.  Otherwise, with the pause included (the default),
    for a target that is not negative and helpers that round-trip the
    estimated minute, clocking out at the estimated time on a day that
    is not a Friday yields exactly the target as net minutes: above six
    hours the added half hour is the pause that is deducted again. *)
Theorem estimateExitTime_meets_target (entrataTime : string) (targetHours : Q)
    (includePause : option bool) (dateKey : string) :
  (parseTimeToMinutes (Some entrataTime) = None →
     estimateExitTime (Some entrataTime) targetHours includePause = "--:--")
  ∧ (∀ entrataMinutes exitMinutes,
       parseTimeToMinutes (Some entrataTime) = Some entrataMinutes →
       default true includePause = true →
       (0 <= targetHours)%Q →
       isFriday (parseDateISO dateKey) = false →
       exitMinutes = entrataMinutes + hoursToMinutes targetHours
                     + (if Qgtb targetHours 6 then 30 else 0) →
       parseTimeToMinutes (Some (minutesToTime exitMinutes)) = Some exitMinutes →
       estimateExitTime (Some entrataTime) targetHours includePause
         = minutesToTime exitMinutes
       ∧ ∃ day,
           calculateDayHours
             (Some [mkEntry "entrata" (Some entrataTime) None;
                    mkEntry "uscita" (Some (minutesToTime exitMinutes)) None]) dateKey
             = Normal day
           ∧ Day.minutes day = hoursToMinutes targetHours
           ∧ Day.hasIncomplete day = false).
Proof.
  split.
  - intros Hbad. unfold estimateExitTime. by rewrite Hbad.
  - intros e x He Hinc Hpos Hfri Hx Hround.
    assert (estimateExitTime (Some entrataTime) targetHours includePause
            = minutesToTime x) as Hest.
    { unfold estimateExitTime. rewrite He, Hinc. cbn [andb]. subst x.
      unfold CONFIG.PAUSE_THRESHOLD_HOURS, CONFIG.PAUSE_MINUTES.
      destruct (Qgtb targetHours 6); f_equal; lia. }
    split; [done|].
    pose proof (hoursToMinutes_mono 0 targetHours Hpos) as Hnonneg.
    change (hoursToMinutes 0) with 0 in Hnonneg.
    unfold calculateDayHours. cbn [noEntries length Nat.eqb].
    rewrite specialDay_shape, bind_Normal, calculatePairMinutes_sums, bind_Normal.
    cbv zeta.
    assert (timesOf "entrata"
              [mkEntry "entrata" (Some entrataTime) None;
               mkEntry "uscita" (Some (minutesToTime x)) None]
            = [Some entrataTime]) as -> by done.
    assert (timesOf "uscita"
              [mkEntry "entrata" (Some entrataTime) None;
               mkEntry "uscita" (Some (minutesToTime x)) None]
            = [Some (minutesToTime x)]) as -> by done.
    cbn [length Nat.min Nat.ltb Nat.leb].
    assert (workedSum [Some entrataTime] [Some (minutesToTime x)] 1 = 0 `max` (x - e)) as ->.
    { unfold workedSum, spanMinutes. cbn. rewrite He, Hround. lia. }
    eexists. split; [reflexivity|]. cbn [Day.minutes Day.hasIncomplete].
    split; [|done].
    unfold pauseMinutesFor. cbn [Pair.pairCount Pair.workedMinutes Pair.breakMinutes].
    rewrite Hfri. cbn [negb Nat.leb].
    rewrite (shouldApplyPause_threshold _ _ Hfri).
    unfold CONFIG.PAUSE_MINUTES.
    destruct (Qgtb targetHours 6) eqn:Hgt.
    + apply Qgtb_lt in Hgt.
      pose proof (hoursToMinutes_mono 6 targetHours (Qlt_le_weak _ _ Hgt)) as H6.
      change (hoursToMinutes 6) with 360 in H6.
      rewrite (proj2 (Z.ltb_lt 360 (0 `max` (x - e)))) by lia. lia.
    + assert (targetHours <= 6)%Q as Hle.
      { apply Qnot_lt_le. intros Hlt%Qgtb_lt. congruence. }
      pose proof (hoursToMinutes_mono targetHours 6 Hle) as H6.
      change (hoursToMinutes 6) with 360 in H6.
      rewrite (proj2 (Z.ltb_ge 360 (0 `max` (x - e)))) by lia. lia.
Qed.

(** *** Readable durations *)

(** X9: [formatDeltaMinutes] always writes a sign, [+] for zero and
    above, and a surplus and the deficit of the same size differ in the
    sign alone; [formatHoursReadable] writes a deficit as [-] before the
    text of the surplus; and from one hour on the two agree up to the
    [+] that only the delta carries. *)
Theorem readable_formats (minutes : Z) :
  (0 < minutes →
     ∃ body, formatDeltaMinutes minutes = "+" +:+ body
           ∧ formatDeltaMinutes (- minutes) = "-" +:+ body)
  ∧ (0 < minutes →
     formatHoursReadable (- minutes) = "-" +:+ formatHoursReadable minutes)
  ∧ (60 ≤ Z.abs minutes →
     formatDeltaMinutes minutes
     = (if 0 <=? minutes then "+" else "") +:+ formatHoursReadable minutes).
Proof.
  split; [|split].
  - intros Hpos. unfold formatDeltaMinutes.
    rewrite Z.abs_opp.
    rewrite (proj2 (Z.leb_le 0 minutes)) by lia.
    rewrite (proj2 (Z.leb_gt 0 (- minutes))) by lia.
    cbv zeta. repeat case_match; eexists; split; reflexivity.
  - intros Hpos. unfold formatHoursReadable.
    rewrite Z.abs_opp.
    rewrite (proj2 (Z.ltb_ge minutes 0)) by lia.
    rewrite (proj2 (Z.ltb_lt (- minutes) 0)) by lia.
    cbv zeta. by case_match.
  - intros Hhour. unfold formatDeltaMinutes, formatHoursReadable. cbv zeta.
    assert ((Z.abs minutes `div` 60 =? 0) = false) as ->.
    { apply Z.eqb_neq. intros Hdiv.
      pose proof (Z.div_mod (Z.abs minutes) 60).
      pose proof (Z.mod_pos_bound (Z.abs minutes) 60). lia. }
    destruct (0 <=? minutes) eqn:Hsign;
      [apply Z.leb_le in Hsign; rewrite (proj2 (Z.ltb_ge minutes 0)) by lia
      |apply Z.leb_gt in Hsign; rewrite (proj2 (Z.ltb_lt minutes 0)) by lia];
      by case_match.
Qed.

(** *** Balance of a full week *)

Lemma weekLoop_days (l : list (string * option (list Entry))) (days : list Day.t)
    (t : Z) (m : gmap string Day.t) :
  Forall2 (λ kv d, calculateDayHours kv.2 kv.1 = Normal d) l days →
  ∃ m', forOf weekTotalStep (t, m) l
        = Normal (t + Zsum (Day.minutes <$> days), m').
Proof.
  intros Hdays. revert t m.
  induction Hdays as [|[k es] d l days Hd _ IH]; intros t m.
  - exists m. cbn. f_equal. f_equal. lia.
  - cbn [forOf]. cbn [fst snd] in Hd.
    assert (weekTotalStep (t, m) (k, es)
            = Normal (t + Day.minutes d, <[k:=d]> m)) as ->
      by (unfold weekTotalStep; by rewrite Hd).
    rewrite bind_Normal.
    destruct (IH (t + Day.minutes d) (<[k:=d]> m)) as [m' ->].
    exists m'. rewrite fmap_cons, Zsum_cons. f_equal. f_equal. lia.
Qed.

Lemma deltas_of_days (l : list (string * option (list Entry))) (deltas : list Delta.t) :
  Forall2 (λ kv d, calculateDayDelta kv.2 kv.1 = Normal (Some d)) l deltas →
  ∃ days,
    Forall2 (λ kv d, calculateDayHours kv.2 kv.1 = Normal d) l days
    ∧ Zsum (Delta.minutes <$> deltas)
      = Zsum (Day.minutes <$> days)
        - Zsum ((λ k, if isFriday (parseDateISO k) then 360 else 450) <$> l.*1).
Proof.
  induction 1 as [|[k es] d l deltas Hd _ (days & Hdays & Hsum)].
  - exists []. split; [constructor | done].
  - cbn [fst snd] in Hd.
    destruct (calculateDayHours_returns es k) as [day Hday].
    exists (day :: days). split; [by constructor|].
    rewrite !fmap_cons, !Zsum_cons, Hsum. cbn [fst].
    assert (Delta.minutes d
            = Day.minutes day - if isFriday (parseDateISO k) then 360 else 450) as ->;
      [|lia].
    destruct es as [es|]; [|done].
    rewrite (calculateDayDelta_shape _ _ _ Hday), hoursToMinutes_daily_target in Hd.
    cbv zeta in Hd. repeat case_match; by simplify_eq.
Qed.

Lemma targets_by_count (keys : list string) :
  Zsum ((λ k, if isFriday (parseDateISO k) then 360 else 450) <$> keys)
  = 360 * Z.of_nat (length (filter (λ k, isFriday (parseDateISO k) = true) keys))
    + 450 * Z.of_nat (length (filter (λ k, isFriday (parseDateISO k) = false) keys)).
Proof.
  induction keys as [|k keys IH]; [done|].
  rewrite fmap_cons, Zsum_cons, IH, !filter_cons.
  destruct (isFriday (parseDateISO k)) eqn:Hfri.
  - rewrite decide_True, decide_False by done. cbn [length]. lia.
  - rewrite decide_False, decide_True by done. cbn [length]. lia.
Qed.

(** X10: in a week of four days and one Friday in which every day has a
    delta, the balance of the week total is the sum of the daily
    deltas; for any other number of days the total exceeds the sum of
    the deltas by 450 minutes per day and 360 per Friday. *)
Theorem week_balance_sums_deltas (weekEntries : WeekEntries) (deltas : list Delta.t) :
  Forall2 (λ kv d, calculateDayDelta kv.2 kv.1 = Normal (Some d))
    (map_to_list weekEntries) deltas →
  let keys := (map_to_list weekEntries).*1 in
  let fridays := length (filter (λ k, isFriday (parseDateISO k) = true) keys) in
  let others := length (filter (λ k, isFriday (parseDateISO k) = false) keys) in
  ∃ r,
    calculateWeekTotal weekEntries = Normal r
    ∧ WeekTotal.minutes r
      = Zsum (Delta.minutes <$> deltas)
        + 450 * Z.of_nat others + 360 * Z.of_nat fridays
    ∧ (fridays = 1%nat → others = 4%nat →
       Balance.minutes (calculateBalance (WeekTotal.minutes r))
       = Zsum (Delta.minutes <$> deltas)).
Proof.
  intros Hdeltas keys fridays others.
  destruct (deltas_of_days _ _ Hdeltas) as (days & Hdays & Hsum).
  destruct (weekLoop_days _ _ 0 ∅ Hdays) as [m Hrun].
  unfold calculateWeekTotal. rewrite Hrun, bind_Normal.
  eexists. split; [reflexivity|]. cbn [WeekTotal.minutes].
  rewrite targets_by_count in Hsum. fold keys fridays others in Hsum.
  split; [lia|].
  intros Hf Ho. unfold calculateBalance, CONFIG.WEEKLY_TARGET_MINUTES.
  cbn [Balance.minutes]. lia.
Qed.

(** *** More on the Friday suggestion *)

Lemma find_split {A : Type} (f : A → bool) (l : list A) (x : A) :
  List.find f l = Some x →
  ∃ l1 l2, l = (l1 ++ x :: l2)%list ∧ Forall (λ y, f y = false) l1 ∧ f x = true.
Proof.
  induction l as [|y l IH]; [done|]. cbn [List.find].
  destruct (f y) eqn:Hy.
  - intros [= ->]. by exists [], l.
  - intros (l1 & l2 & -> & Hl1 & Hx)%IH.
    exists (y :: l1), l2. split; [done|]. split; [by constructor | done].
Qed.

(** The parts of a suggestion, read off [suggestion_shape]. *)
Lemma suggestion_fields (weekEntries : WeekEntries) (s : Suggestion.t) :
  calculateFridayExitSuggestion weekEntries = Normal (Some s) →
  let fridayEntries := default [] (weekGet weekEntries (Suggestion.fridayDateKey s)) in
  Suggestion.fridayDateKey s ≠ ""
  ∧ Suggestion.hasFridayEntrata s
    = existsb (λ e, bool_decide (type e = "entrata")) fridayEntries
  ∧ Suggestion.hasFridayComplete s
    = existsb (λ e, bool_decide (type e = "uscita")) fridayEntries
      && existsb (λ e, bool_decide (type e = "entrata")) fridayEntries.
Proof.
  rewrite suggestion_shape. intros [= Hs].
  destruct (List.find _ _) as [fk|]; [|done].
  destruct (bool_decide (fk = "")) eqn:Hne; [done|].
  apply bool_decide_eq_false in Hne.
  cbv zeta in Hs. case_match; [done|]. by injection Hs as <-.
Qed.

(** X11: the Friday a suggestion is made for is a key of the week, is a
    Friday, is not the empty key, and is the earliest Friday of the
    week in the order of the keys. *)
Theorem fridaySuggestion_earliest_friday (weekEntries : WeekEntries) (s : Suggestion.t) :
  calculateFridayExitSuggestion weekEntries = Normal (Some s) →
  is_Some (weekEntries !! Suggestion.fridayDateKey s)
  ∧ isFriday (parseDateISO (Suggestion.fridayDateKey s)) = true
  ∧ Suggestion.fridayDateKey s ≠ ""
  ∧ ∀ k, is_Some (weekEntries !! k) → isFriday (parseDateISO k) = true →
         String.le (Suggestion.fridayDateKey s) k.
Proof.
  intros Hs.
  destruct (suggestion_fields _ _ Hs) as (Hne & _).
  apply suggestion_inv in Hs as (Hfind & _).
  pose proof Hfind as (l1 & l2 & Hkeys & Hl1 & Hfri)%find_split.
  assert (Suggestion.fridayDateKey s ∈ sortedKeys weekEntries) as Hin.
  { rewrite Hkeys. apply elem_of_app. right. left. }
  split; [by apply elem_of_sortedKeys|]. split; [done|]. split; [done|].
  intros k Hk%elem_of_sortedKeys Hkfri.
  pose proof (StronglySorted_merge_sort String.le (map_to_list weekEntries).*1) as Hsorted.
  fold (sortedKeys weekEntries) in Hsorted. rewrite Hkeys in Hsorted, Hk.
  apply elem_of_app in Hk as [Hk|Hk].
  - rewrite Forall_forall in Hl1. apply Hl1 in Hk. congruence.
  - apply StronglySorted_app_1_r, StronglySorted_cons in Hsorted as [Hle _].
    apply elem_of_cons in Hk as [->|Hk]; [done|].
    rewrite Forall_forall in Hle. by apply Hle.
Qed.

(** X12: the fields of a suggestion agree with each other: the target
    is never negative and is zero exactly when the extra minutes reach
    360; an exit time is given only to a Friday that has a clock-in and
    is not complete; a complete Friday has no exit time. *)
Theorem fridaySuggestion_fields_agree (weekEntries : WeekEntries) (s : Suggestion.t) :
  calculateFridayExitSuggestion weekEntries = Normal (Some s) →
  0 ≤ Suggestion.fridayTargetMinutes s
  ∧ (Suggestion.fridayTargetMinutes s = 0 ↔ 360 ≤ Suggestion.extraMinutes s)
  ∧ (Suggestion.extraMinutes s ≤ 360 →
     Suggestion.fridayTargetMinutes s + Suggestion.extraMinutes s = 360)
  ∧ (is_Some (Suggestion.exitTime s) →
     Suggestion.hasFridayEntrata s = true ∧ Suggestion.hasFridayComplete s = false)
  ∧ (Suggestion.hasFridayComplete s = true → Suggestion.exitTime s = None).
Proof.
  intros Hs.
  destruct (suggestion_fields _ _ Hs) as (_ & Hentrata & Hcomplete).
  apply suggestion_inv in Hs as (_ & _ & _ & Htarget & Hexit).
  rewrite Hentrata, Hcomplete, Hexit, Htarget. unfold fridayExitTime.
  split; [lia|]. split; [lia|]. split; [lia|].
  destruct (existsb (λ e, bool_decide (type e = "entrata")) _),
           (existsb (λ e, bool_decide (type e = "uscita")) _); cbn;
    (split; [by intros [? [=]] || done | done]).
Qed.

Lemma keys_insert_present (weekEntries : WeekEntries) (k : string)
    (v : option (list Entry)) :
  is_Some (weekEntries !! k) →
  (map_to_list (<[k:=v]> weekEntries)).*1 ≡ₚ (map_to_list weekEntries).*1.
Proof.
  intros [old Hold].
  rewrite <- (map_to_list_delete weekEntries k old Hold).
  rewrite <- (map_to_list_delete (<[k:=v]> weekEntries) k v (lookup_insert_eq _ _ _)).
  by rewrite delete_insert_eq.
Qed.

(** X13: what the Friday itself holds has no part in the extra minutes:
    replacing the entries under the week's Friday leaves the extra
    minutes and the adjusted target of the suggestion as they were. *)
Theorem fridaySuggestion_extra_ignores_friday (weekEntries : WeekEntries)
    (fridayDateKey : string) (fridayEntries : option (list Entry))
    (s s' : Suggestion.t) :
  theFriday weekEntries fridayDateKey →
  calculateFridayExitSuggestion weekEntries = Normal (Some s) →
  calculateFridayExitSuggestion (<[fridayDateKey := fridayEntries]> weekEntries)
    = Normal (Some s') →
  Suggestion.fridayDateKey s' = Suggestion.fridayDateKey s
  ∧ Suggestion.extraMinutes s' = Suggestion.extraMinutes s
  ∧ Suggestion.fridayTargetMinutes s' = Suggestion.fridayTargetMinutes s.
Proof.
  intros Hfri Hs Hs'.
  assert (theFriday (<[fridayDateKey := fridayEntries]> weekEntries) fridayDateKey)
    as Hfri'.
  { destruct Hfri as (Hin & Hf & Huniq). split; [|split; [done|]].
    - rewrite lookup_insert_eq. by eexists.
    - intros k Hk Hkf. destruct (decide (k = fridayDateKey)) as [->|Hne]; [done|].
      rewrite lookup_insert_ne in Hk by done. by apply Huniq. }
  apply suggestion_inv in Hs as (Hfind & _ & Hextra & Htarget & _).
  apply suggestion_inv in Hs' as (Hfind' & _ & Hextra' & Htarget' & _).
  rewrite (find_theFriday _ _ Hfri) in Hfind. injection Hfind as Hkey.
  rewrite (find_theFriday _ _ Hfri') in Hfind'. injection Hfind' as Hkey'.
  rewrite <- Hkey in Hextra. rewrite <- Hkey' in Hextra'.
  rewrite (extra_sum_theFriday _ _ Hfri) in Hextra.
  rewrite (extra_sum_theFriday _ _ Hfri') in Hextra'.
  assert (Suggestion.extraMinutes s' = Suggestion.extraMinutes s) as Heq.
  { rewrite Hextra, Hextra'.
    rewrite (Zsum_Permutation _ _
      (fmap_Permutation _ _ _
         (keys_insert_present weekEntries fridayDateKey fridayEntries (proj1 Hfri)))).
    f_equal. apply list_fmap_ext. intros _ k _. unfold extraOf.
    destruct (isFriday (parseDateISO k)) eqn:Hk; [done|].
    assert (k ≠ fridayDateKey) as Hne.
    { intros ->. destruct Hfri as (_ & Hf & _). congruence. }
    unfold dayExtra, weekGet. by rewrite lookup_insert_ne. }
  split; [congruence|]. split; [done|]. rewrite Htarget, Htarget'. by rewrite Heq.
Qed.

(** X14: leaving at the suggested time closes the week: when the Friday
    holds a single clock-in and the helpers round-trip the suggested
    minute, the Friday closed at the suggested exit time has exactly the
    adjusted target as net minutes, and if the extra minutes do not
    exceed 360 its delta cancels them. *)
Theorem fridaySuggestion_exit_meets_target (weekEntries : WeekEntries)
    (s : Suggestion.t) (clockIn : Entry) (entrataMin : Z) (exitTime : string) :
  calculateFridayExitSuggestion weekEntries = Normal (Some s) →
  weekGet weekEntries (Suggestion.fridayDateKey s) = Some [clockIn] →
  type clockIn = "entrata" →
  parseTimeToMinutes (time clockIn) = Some entrataMin →
  Suggestion.exitTime s = Some exitTime →
  parseTimeToMinutes (Some (minutesToTime (entrataMin + Suggestion.fridayTargetMinutes s)))
    = Some (entrataMin + Suggestion.fridayTargetMinutes s) →
  ∃ day delta,
    calculateDayHours (Some [clockIn; mkEntry "uscita" (Some exitTime) None])
      (Suggestion.fridayDateKey s) = Normal day
    ∧ Day.minutes day = Suggestion.fridayTargetMinutes s
    ∧ Day.hasIncomplete day = false
    ∧ calculateDayDelta (Some [clockIn; mkEntry "uscita" (Some exitTime) None])
        (Suggestion.fridayDateKey s) = Normal (Some delta)
    ∧ (Suggestion.extraMinutes s ≤ 360 →
       Delta.minutes delta + Suggestion.extraMinutes s = 0).
Proof.
  intros Hs Hfriday Hty Hin Hexit Hround.
  pose proof Hs as (Hfind & _ & _ & Htarget & Hexit')%suggestion_inv.
  apply find_some in Hfind as [_ Hfri].
  rewrite Hfriday in Hexit'.
  change (default [] (Some [clockIn])) with [clockIn] in Hexit'.
  rewrite fridayExitTime_shape in Hexit'. unfold clockIns, clockOuts in Hexit'.
  rewrite !filter_cons, decide_True, decide_False in Hexit' by (by rewrite ?Hty).
  cbn in Hexit'. rewrite Hin in Hexit'. cbn in Hexit'.
  rewrite Hexit in Hexit'. injection Hexit' as ->.
  set (target := Suggestion.fridayTargetMinutes s) in *.
  assert (0 ≤ target) as Hpos by lia.
  assert (calculateDayHours
            (Some [clockIn; mkEntry "uscita" (Some (minutesToTime (entrataMin + target))) None])
            (Suggestion.fridayDateKey s)
          = Normal (Day.mk target (minutesToTime target) false (Some target)
                      (Some false) (Some 0))) as Hday.
  { unfold calculateDayHours. cbn [noEntries length Nat.eqb].
    rewrite specialDay_shape, bind_Normal, calculatePairMinutes_sums, bind_Normal.
    cbv zeta.
    assert (timesOf "entrata"
              [clockIn; mkEntry "uscita" (Some (minutesToTime (entrataMin + target))) None]
            = [time clockIn]) as ->.
    { unfold timesOf. rewrite filter_cons, decide_True by done.
      by rewrite filter_cons, decide_False. }
    assert (timesOf "uscita"
              [clockIn; mkEntry "uscita" (Some (minutesToTime (entrataMin + target))) None]
            = [Some (minutesToTime (entrataMin + target))]) as ->.
    { unfold timesOf. rewrite filter_cons, decide_False by (by rewrite Hty).
      by rewrite filter_cons, decide_True. }
    cbn [length Nat.min Nat.ltb Nat.leb].
    assert (workedSum [time clockIn] [Some (minutesToTime (entrataMin + target))] 1
            = target) as ->.
    { unfold workedSum, spanMinutes. cbn. rewrite Hin, Hround. lia. }
    unfold pauseMinutesFor. rewrite Hfri. cbn.
    rewrite Z.sub_0_r, Z.max_r by done. done. }
  eexists _, _. split; [exact Hday|]. split; [done|]. split; [done|].
  rewrite (calculateDayDelta_shape _ _ _ Hday). cbv zeta.
  split; [reflexivity|]. cbn [Delta.minutes Day.minutes].
  rewrite hoursToMinutes_daily_target, Hfri. lia.
Qed.

(** X15: in a list of two entries or more, entries that are neither a
    clock-in nor a clock-out count for nothing: the day has the same net
    minutes and the same completeness as the clock entries alone. *)
Theorem calculateDayHours_ignores_other_kinds (entries : list Entry) (dateKey : string) :
  (2 ≤ length entries)%nat →
  ∃ day day',
    calculateDayHours (Some entries) dateKey = Normal day
    ∧ calculateDayHours
        (Some (filter (λ e, type e = "entrata" ∨ type e = "uscita") entries)) dateKey
      = Normal day'
    ∧ Day.minutes day = Day.minutes day'
    ∧ Day.hasIncomplete day = Day.hasIncomplete day'.
Proof.
  intros Hlen.
  set (clock := filter (λ e, type e = "entrata" ∨ type e = "uscita") entries).
  assert (timesOf "entrata" clock = timesOf "entrata" entries) as Hins.
  { unfold timesOf, clock. f_equal. apply list_filter_filter_l. auto. }
  assert (timesOf "uscita" clock = timesOf "uscita" entries) as Houts.
  { unfold timesOf, clock. f_equal. apply list_filter_filter_l. auto. }
  assert (¬ soleSpecial entries) as Hns.
  { intros (e & -> & _). cbn in Hlen. lia. }
  assert (calculateDayHours (Some entries) dateKey = Normal
            (let p := Pair.mk
                 (workedSum (timesOf "entrata" entries) (timesOf "uscita" entries)
                    (length (timesOf "entrata" entries) `min` length (timesOf "uscita" entries)))
                 (length (timesOf "uscita" entries) <? length (timesOf "entrata" entries))%nat
                 (length (timesOf "entrata" entries) `min` length (timesOf "uscita" entries))
                 (breakSum (timesOf "entrata" entries) (timesOf "uscita" entries)
                    (length (timesOf "entrata" entries) `min` length (timesOf "uscita" entries))) in
             let pauseMinutes := pauseMinutesFor p dateKey in
             let netMinutes := 0 `max` (Pair.workedMinutes p - pauseMinutes) in
             Day.mk netMinutes (minutesToTime netMinutes) (Pair.hasIncomplete p)
               (Some (Pair.workedMinutes p)) (Some (0 <? pauseMinutes))
               (Some (if (1 <? Pair.pairCount p)%nat then Pair.breakMinutes p
                      else if 0 <? pauseMinutes then CONFIG.PAUSE_MINUTES else 0))))
    as Hday.
  { unfold calculateDayHours.
    assert (noEntries (Some entries) = false) as ->
      by (destruct entries; [cbn in Hlen; lia | reflexivity]).
    by rewrite (specialDay_pair_path _ Hns), bind_Normal,
      calculatePairMinutes_sums, bind_Normal. }
  rewrite Hday. cbv zeta.
  destruct clock as [|c clock'] eqn:Hclock.
  - (* no clock entry at all: both sides are zero *)
    cbn in Hins, Houts. rewrite <- Hins, <- Houts.
    eexists _, _. split; [reflexivity|]. split; [reflexivity|].
    cbn [Day.minutes Day.hasIncomplete length Nat.min Pair.workedMinutes
         Pair.hasIncomplete Nat.ltb Nat.leb].
    split; [|done].
    change (workedSum [] [] 0) with 0.
    unfold pauseMinutesFor. cbn [Pair.pairCount Pair.workedMinutes Pair.breakMinutes].
    destruct (isFriday (parseDateISO dateKey)) eqn:Hfri; cbn [negb Nat.leb]; [done|].
    rewrite (shouldApplyPause_threshold _ _ Hfri). done.
  - assert (¬ soleSpecial (c :: clock')) as Hns'.
    { intros (e & [= -> ->] & Hsp).
      assert (e ∈ filter (λ e, type e = "entrata" ∨ type e = "uscita") entries) as He
        by (fold clock; rewrite Hclock; left).
      apply list_elem_of_filter in He as [He _].
      destruct Hsp as [Hsp|Hsp], He as [He|He]; rewrite Hsp in He; discriminate. }
    unfold calculateDayHours. cbn [noEntries length Nat.eqb].
    rewrite (specialDay_pair_path _ Hns'), bind_Normal,
      calculatePairMinutes_sums, bind_Normal. cbv zeta.
    rewrite Hins, Houts.
    eexists _, _. split; [reflexivity|]. split; [reflexivity|]. done.
Qed.

(** *** Invariants of pair resolution *)

Lemma filter_two_kinds_length (entries : list Entry) :
  (length (filter (λ e, type e = "entrata") entries)
   + length (filter (λ e, type e = "uscita") entries) ≤ length entries)%nat.
Proof.
  induction entries as [|e entries IH]; [done|].
  rewrite !filter_cons. cbn [length].
  destruct (decide (type e = "entrata")) as [He|He];
    destruct (decide (type e = "uscita")) as [Hu|Hu]; cbn [length]; try lia.
  rewrite He in Hu. discriminate.
Qed.

(** X16: pair resolution never reports negative worked or break
    minutes, never counts more pairs than half the entries, reports no
    break with fewer than two pairs, and flags a day incomplete only if
    it has a clock-in. *)
Theorem calculatePairMinutes_invariants (entries : list Entry) :
  ∃ p,
    calculatePairMinutes (Some entries) = Normal p
    ∧ 0 ≤ Pair.workedMinutes p
    ∧ 0 ≤ Pair.breakMinutes p
    ∧ (2 * Pair.pairCount p ≤ length entries)%nat
    ∧ ((Pair.pairCount p ≤ 1)%nat → Pair.breakMinutes p = 0)
    ∧ (Pair.hasIncomplete p = true → ∃ e, e ∈ entries ∧ type e = "entrata").
Proof.
  rewrite calculatePairMinutes_sums. cbv zeta.
  eexists. split; [reflexivity|].
  cbn [Pair.workedMinutes Pair.breakMinutes Pair.pairCount Pair.hasIncomplete].
  split; [apply workedSum_nonneg|]. split; [apply breakSum_nonneg|].
  unfold timesOf. rewrite !length_fmap.
  pose proof (filter_two_kinds_length entries) as Hlen.
  split; [lia|]. split.
  - intros Hle. unfold breakSum.
    by replace (_ `min` _ - 1)%nat with 0%nat by lia.
  - intros Hopen%Nat.ltb_lt.
    destruct (filter (λ e, type e = "entrata") entries) as [|e ins] eqn:Hins;
      [cbn in Hopen; lia|].
    assert (e ∈ filter (λ e, type e = "entrata") entries) as He
      by (rewrite Hins; left).
    apply list_elem_of_filter in He as [Hty He]. by exists e.
Qed.

End MoreProperties.

(** ** The further properties on the scenarios *)

Section MoreScenarios.
#[local] Existing Instance SpecUtils.

Lemma calculateDayHours_net_bounds_witness :
  ∃ day gross,
    calculateDayHours (Some wednesdayTwoPairs) "2026-02-25" = Normal day
    ∧ Day.grossMinutes day = Some gross
    ∧ 0 ≤ Day.minutes day ≤ gross
    ∧ gross - Day.minutes day ≤ 30.
Proof.
  destruct (calculateDayHours_net_bounds wednesdayTwoPairs "2026-02-25")
    as (day & gross & Hday & Hgross & Hbounds & Hpause & _).
  - discriminate.
  - intros (e & Heq & _). discriminate Heq.
  - exists day, gross. split; [exact Hday|]. split; [exact Hgross|].
    split; [exact Hbounds | exact Hpause].
Defined.

Lemma calculatePairMinutes_presence_witness :
  ∃ p first last,
    calculatePairMinutes (Some wednesdayTwoPairs) = Normal p
    ∧ parseTimeToMinutes (Some "08:00") = Some first
    ∧ parseTimeToMinutes (Some "16:10") = Some last
    ∧ Pair.workedMinutes p + Pair.breakMinutes p = last - first.
Proof.
  destruct (calculatePairMinutes_presence wednesdayTwoPairs)
    as (p & first & last & Hp & Hfirst & Hlast & Hsum).
  - change (0 < 2)%nat. lia.
  - intros [|[|i]] Hi.
    + exists 480, 720. vm_compute. split; [reflexivity|]. split; [reflexivity | discriminate].
    + exists 740, 970. vm_compute. split; [reflexivity|]. split; [reflexivity | discriminate].
    + exfalso. change (S (S i) < 2)%nat in Hi. lia.
  - intros [|i] Hi.
    + exists 720, 740. vm_compute. split; [reflexivity|]. split; [reflexivity | discriminate].
    + exfalso. change (S i + 1 < 2)%nat in Hi. lia.
  - exists p, first, last. split; [exact Hp|]. split; [exact Hfirst|].
    split; [exact Hlast | exact Hsum].
Defined.

Lemma calculateDayHours_further_clock_in_witness :
  ∃ day,
    calculateDayHours (Some tuesdayOnePair) "2026-02-24" = Normal day
    ∧ calculateDayHours (Some (tuesdayOnePair ++ [entrata "18:00"])%list) "2026-02-24"
      = Normal (Day.mk (Day.minutes day) (Day.formatted day) true
                  (Day.grossMinutes day) (Day.pauseApplied day) (Day.breakMinutes day)).
Proof.
  apply (calculateDayHours_further_clock_in tuesdayOnePair (entrata "18:00") "2026-02-24").
  - discriminate.
  - intros (e & Heq & _). discriminate Heq.
  - reflexivity.
  - change (1 ≤ 1)%nat. lia.
Defined.

Lemma estimateExitTime_meets_target_witness :
  estimateExitTime (Some "08:00") 7.5 None = "16:00"
  ∧ ∃ day,
      calculateDayHours (Some [entrata "08:00"; uscita "16:00"]) "2026-02-24" = Normal day
      ∧ Day.minutes day = 450.
Proof.
  destruct (estimateExitTime_meets_target "08:00" 7.5 None "2026-02-24") as [_ Hmeets].
  destruct (Hmeets 480 960) as (Hexit & day & Hday & Hmin & _).
  - reflexivity.
  - reflexivity.
  - discriminate.
  - reflexivity.
  - reflexivity.
  - reflexivity.
  - split; [exact Hexit|]. exists day. split; [exact Hday | exact Hmin].
Defined.

Lemma week_balance_sums_deltas_witness :
  ∃ r,
    calculateWeekTotal weekFull = Normal r
    ∧ Balance.minutes (calculateBalance (WeekTotal.minutes r)) = 55.
Proof.
  edestruct (week_balance_sums_deltas weekFull) as (r & Hr & _ & Hbalance).
  - let l := eval vm_compute in (map_to_list weekFull) in
    change (map_to_list weekFull) with l.
    repeat (econstructor; [vm_compute; reflexivity|]).
    constructor.
  - exists r. split; [exact Hr|].
    rewrite Hbalance; [reflexivity | reflexivity | reflexivity].
Defined.

Lemma fridaySuggestion_earliest_friday_witness :
  is_Some (weekOpenFriday !! "2026-02-27")
  ∧ isFriday (parseDateISO "2026-02-27") = true.
Proof.
  destruct (fridaySuggestion_earliest_friday weekOpenFriday
              (Suggestion.mk (Some "13:05") 45 315 "2026-02-27" true false))
    as (Hin & Hfri & _).
  - by vm_compute.
  - split; [exact Hin | exact Hfri].
Defined.

Lemma fridaySuggestion_fields_agree_witness : 0 ≤ 315 ∧ 315 + 45 = 360.
Proof.
  destruct (fridaySuggestion_fields_agree weekOpenFriday
              (Suggestion.mk (Some "13:05") 45 315 "2026-02-27" true false))
    as (Hpos & _ & Hsum & _).
  - by vm_compute.
  - split; [exact Hpos|]. apply Hsum. discriminate.
Defined.

Lemma fridaySuggestion_extra_ignores_friday_witness :
  Suggestion.extraMinutes (Suggestion.mk None 45 315 "2026-02-27" true true)
  = Suggestion.extraMinutes (Suggestion.mk (Some "13:05") 45 315 "2026-02-27" true false).
Proof.
  destruct (fridaySuggestion_extra_ignores_friday weekOpenFriday "2026-02-27"
              (Some fridayReentry)
              (Suggestion.mk (Some "13:05") 45 315 "2026-02-27" true false)
              (Suggestion.mk None 45 315 "2026-02-27" true true))
    as (_ & Hextra & _).
  - apply theFriday_check; [by eexists | reflexivity | by vm_compute].
  - by vm_compute.
  - by vm_compute.
  - exact Hextra.
Defined.

Lemma fridaySuggestion_exit_meets_target_witness :
  ∃ day delta,
    calculateDayHours (Some [entrata "07:50"; uscita "13:05"]) "2026-02-27" = Normal day
    ∧ Day.minutes day = 315
    ∧ calculateDayDelta (Some [entrata "07:50"; uscita "13:05"]) "2026-02-27"
      = Normal (Some delta)
    ∧ Delta.minutes delta + 45 = 0.
Proof.
  destruct (fridaySuggestion_exit_meets_target weekOpenFriday
              (Suggestion.mk (Some "13:05") 45 315 "2026-02-27" true false)
              (entrata "07:50") 470 "13:05")
    as (day & delta & Hday & Hmin & _ & Hdelta & Hzero).
  - by vm_compute.
  - reflexivity.
  - reflexivity.
  - reflexivity.
  - reflexivity.
  - reflexivity.
  - exists day, delta. split; [exact Hday|]. split; [exact Hmin|].
    split; [exact Hdelta|]. apply Hzero. discriminate.
Defined.

Lemma calculateDayHours_ignores_other_kinds_witness :
  ∃ day day',
    calculateDayHours (Some (smart 7.5 :: tuesdayOnePair)) "2026-02-24" = Normal day
    ∧ calculateDayHours (Some tuesdayOnePair) "2026-02-24" = Normal day'
    ∧ Day.minutes day = Day.minutes day'.
Proof.
  destruct (calculateDayHours_ignores_other_kinds (smart 7.5 :: tuesdayOnePair) "2026-02-24")
    as (day & day' & Hday & Hday' & Hmin & _).
  - change (2 ≤ 3)%nat. lia.
  - exists day, day'. split; [exact Hday|]. split; [exact Hday' | exact Hmin].
Defined.

End MoreScenarios.
